(** * QEMU guest agent wrapper: a shallow embedding of [qga_wrapper.py]

    The development follows the layering of the Python module:
    - [Py]: the fragment of Python values that travels over the wire
      (the results of [json.loads], the arguments of [json.dumps]),
      with the dictionary, truthiness and text operations the module uses;
    - [Env]: the outside world as the module sees it (the socket, the clock,
      the logger), and the exception-and-state monad the methods run in;
    - [QGAConnection]: the low-level request/reply cycle;
    - [QGAClient]: the launch-and-poll layer built on top of it;
    - [Sample]: a small agent and runtime for worked examples, and [Spec]:
      the vocabulary of the statements.
    The properties follow the definitions, in the same order, and the file
    ends with the worked examples.

    Python text is a [string] (one character per code point, code points
    below 256), bytes are a [list byte], integers are [Z], and durations in
    seconds are exact rationals [Q].  Numbers that travel in JSON documents
    are integers. *)

From Stdlib Require Import ZArith QArith List String Ascii Bool Lia DecimalString.
From Stdlib.Strings Require Import Byte.
Import ListNotations.

Local Open Scope list_scope.
Local Open Scope string_scope.
Local Open Scope Z_scope.

(** ** Characters that cannot be written inside a literal *)

Definition dquote : ascii := "034"%char.
Definition backslash : ascii := "092"%char.
Definition newline : ascii := "010"%char.
Definition str1 (c : ascii) : string := String c EmptyString.
Definition quoted (s : string) : string := str1 dquote ++ s ++ str1 dquote.

Module Py.

(** *** Values *)

Local Unset Elimination Schemes.

Inductive value : Type :=
| PyNone
| PyBool (b : bool)
| PyInt (n : Z)
| PyStr (s : string)
| PyList (l : list value)
| PyDict (d : list (string * value)).

Local Set Elimination Schemes.

(** Induction over values, with the hypotheses for the elements of a list
    and for the entries of a dictionary. *)
Section ValueInd.
Variable P : value -> Prop.
Hypothesis HNone : P PyNone.
Hypothesis HBool : forall b, P (PyBool b).
Hypothesis HInt : forall n, P (PyInt n).
Hypothesis HStr : forall s, P (PyStr s).
Hypothesis HList : forall l, Forall P l -> P (PyList l).
Hypothesis HDict : forall d, Forall (fun kv => P (snd kv)) d -> P (PyDict d).

Fixpoint value_ind (v : value) : P v :=
  match v with
  | PyNone => HNone
  | PyBool b => HBool b
  | PyInt n => HInt n
  | PyStr s => HStr s
  | PyList l =>
      HList l
        ((fix elems (l : list value) : Forall P l :=
            match l with
            | [] => Forall_nil P
            | x :: l' => Forall_cons x (value_ind x) (elems l')
            end) l)
  | PyDict d =>
      HDict d
        ((fix entries (d : list (string * value))
            : Forall (fun kv => P (snd kv)) d :=
            match d with
            | [] => Forall_nil _
            | kv :: d' =>
                Forall_cons kv
                  (match kv as kv0 return P (snd kv0) with
                   | (_, x) => value_ind x
                   end)
                  (entries d')
            end) d)
  end.
End ValueInd.

(** A dictionary keeps its insertion order, which [json.dumps] follows. *)
Definition dict := list (string * value).

Fixpoint dict_get (k : string) (d : dict) : option value :=
  match d with
  | [] => None
  | (k', v) :: d' => if String.eqb k k' then Some v else dict_get k d'
  end.

Definition dict_mem (k : string) (d : dict) : bool :=
  match dict_get k d with Some _ => true | None => false end.

(** [d[k] = v]: overwrite in place, or append a new key at the end. *)
Fixpoint dict_set (k : string) (v : value) (d : dict) : dict :=
  match d with
  | [] => [(k, v)]
  | (k', v') :: d' =>
      if String.eqb k k' then (k', v) :: d' else (k', v') :: dict_set k v d'
  end.

(** [bool(v)] *)
Definition truthy (v : value) : bool :=
  match v with
  | PyNone => false
  | PyBool b => b
  | PyInt n => negb (Z.eqb n 0)
  | PyStr s => negb (String.eqb s "")
  | PyList l => match l with [] => false | _ :: _ => true end
  | PyDict d => match d with [] => false | _ :: _ => true end
  end.

(** ["needle" in haystack] on text. *)
Fixpoint contains (needle hay : string) : bool :=
  if prefix needle hay then true
  else match hay with
       | EmptyString => false
       | String _ hay' => contains needle hay'
       end.

Definition is_str (s : string) (v : value) : bool :=
  match v with PyStr s' => String.eqb s s' | _ => false end.

(** *** Text of integers *)

Definition str_int (n : Z) : string := NilZero.string_of_int (Z.to_int n).

(** *** [json.dumps] with its defaults ([ensure_ascii], separators
    [", "] and [": "]) *)

Definition hex_digit (n : N) : ascii :=
  match String.get (N.to_nat n) "0123456789abcdef" with
  | Some c => c
  | None => "0"%char
  end.

(** The escape of one character: the short escapes of the encoder's table,
    the character itself when it is printable ASCII, a four-digit
    [\u] escape otherwise. *)
Definition escape_char (c : ascii) : string :=
  let n := N_of_ascii c in
  if (n =? 34)%N then String backslash (str1 dquote)
  else if (n =? 92)%N then String backslash (str1 backslash)
  else if (n =? 10)%N then String backslash "n"
  else if (n =? 13)%N then String backslash "r"
  else if (n =? 9)%N then String backslash "t"
  else if (n =? 12)%N then String backslash "f"
  else if (n =? 8)%N then String backslash "b"
  else if ((32 <=? n) && (n <=? 126))%N then str1 c
  else String backslash
         ("u00" ++ String (hex_digit (n / 16)) (str1 (hex_digit (n mod 16)))).

Fixpoint escape_body (s : string) : string :=
  match s with
  | EmptyString => EmptyString
  | String c s' => escape_char c ++ escape_body s'
  end.

Definition encode_basestring_ascii (s : string) : string :=
  String dquote (escape_body s ++ str1 dquote).

Fixpoint dumps (v : value) : string :=
  match v with
  | PyNone => "null"
  | PyBool true => "true"
  | PyBool false => "false"
  | PyInt n => str_int n
  | PyStr s => encode_basestring_ascii s
  | PyList l => "[" ++ String.concat ", " (map dumps l) ++ "]"
  | PyDict d =>
      "{" ++ String.concat ", "
               (map (fun kv : string * value =>
                       let (k, x) := kv in
                       encode_basestring_ascii k ++ ": " ++ dumps x) d)
          ++ "}"
  end.

(** *** [str.encode('utf-8')] *)

Definition utf8_char (c : ascii) : list byte :=
  let n := N_of_ascii c in
  if (n <? 128)%N then [byte_of_ascii c]
  else [byte_of_ascii (ascii_of_N (192 + n / 64));
        byte_of_ascii (ascii_of_N (128 + n mod 64))].

Fixpoint encode_utf8 (s : string) : list byte :=
  match s with
  | EmptyString => []
  | String c s' => (utf8_char c ++ encode_utf8 s')%list
  end.

(** *** [base64.b64encode(...).decode()] *)

Definition b64_digit (n : N) : ascii :=
  match String.get (N.to_nat n)
          "ABCDEFGHIJKLMNOPQRSTUVWXYZabcdefghijklmnopqrstuvwxyz0123456789+/" with
  | Some c => c
  | None => "="%char
  end.

Fixpoint b64_groups (bs : list N) : string :=
  (match bs with
   | [] => ""
   | [a] =>
       String (b64_digit (a / 4)) (String (b64_digit (a mod 4 * 16)) "==")
   | [a; b] =>
       String (b64_digit (a / 4))
         (String (b64_digit (a mod 4 * 16 + b / 16))
            (String (b64_digit (b mod 16 * 4)) "="))
   | a :: b :: c :: rest =>
       String (b64_digit (a / 4))
         (String (b64_digit (a mod 4 * 16 + b / 16))
            (String (b64_digit (b mod 16 * 4 + c / 64))
               (String (b64_digit (c mod 64)) (b64_groups rest))))
   end)%N.

Definition b64encode (bs : list byte) : string := b64_groups (map Byte.to_N bs).

(** *** Printable ASCII, the alphabet of a document on the wire *)

Definition printable (c : ascii) : bool :=
  ((32 <=? N_of_ascii c) && (N_of_ascii c <=? 126))%N.

Fixpoint all_printable (s : string) : bool :=
  match s with
  | EmptyString => true
  | String c s' => printable c && all_printable s'
  end.

(** [" ".join(words)] *)
Definition join_words (words : list string) : string := String.concat " " words.

End Py.

(** ** The world outside the module, and the monad of its methods *)

Module Env.
Import Py.

(** *** Exceptions *)

(** The three exception classes the module declares (lines 22-34). *)
Inductive qga_class : Type :=
| QGAError
| QGAConnectionError
| QGAProtocolError.


(** Built-in exceptions that the module's code can raise without meaning to. *)
Inductive builtin_class : Type :=
| AttributeError
| TypeError
| KeyError
| IndexError
| ValueError
| UnicodeDecodeError.

Inductive exn : Type :=
| Qga (cls : qga_class) (msg : string)
| SocketTimeout
| SocketError (msg : string)
| Builtin (cls : builtin_class).

(** [except socket.error as e]: matches every socket failure, the deadline
    included; the result is [str(e)]. *)
Definition socket_error_text (e : exn) : option string :=
  match e with
  | SocketTimeout => Some "timed out"
  | SocketError msg => Some msg
  | _ => None
  end.

Inductive outcome (A : Type) : Type :=
| Returned (a : A)
| Raised (e : exn).
Arguments Returned {A} a.
Arguments Raised {A} e.

(** *** The parts of the Python runtime the module calls but does not define *)

Inductive parsed : Type :=
| Parsed (v : value)
| NotJSON (msg : string)
| NotUTF8.

Class Runtime : Type := {
  (** [json.loads(data.decode('utf-8'))]: the value, a [JSONDecodeError]
      with its text, or a [UnicodeDecodeError]. *)
  json_loads : list byte -> parsed;
  (** [base64.b64decode(v).decode('utf-8')]: the text, or the text of the
      exception raised on the way. *)
  b64decode_utf8 : value -> string + string;
  (** [repr] of a list or a dictionary. *)
  container_repr : value -> string;
  (** [str] of a floating-point number of seconds. *)
  str_float : Q -> string
}.

(** [str(v)], as an f-string applies it. *)
Definition py_str `{Runtime} (v : value) : string :=
  match v with
  | PyNone => "None"
  | PyBool true => "True"
  | PyBool false => "False"
  | PyInt n => str_int n
  | PyStr s => s
  | PyList _ | PyDict _ => container_repr v
  end.

(** [k in v] *)
Definition py_in (k : string) (v : value) : outcome bool :=
  match v with
  | PyDict d => Returned (dict_mem k d)
  | PyList l => Returned (existsb (is_str k) l)
  | PyStr s => Returned (contains k s)
  | PyNone | PyBool _ | PyInt _ => Raised (Builtin TypeError)
  end.

(** [v[k]] for a text key [k] *)
Definition py_getitem (v : value) (k : string) : outcome value :=
  match v with
  | PyDict d =>
      match dict_get k d with
      | Some x => Returned x
      | None => Raised (Builtin KeyError)
      end
  | _ => Raised (Builtin TypeError)
  end.

(** [v.get(k, default)]: only a dictionary has the method. *)
Definition py_get (v : value) (k : string) (default : value) : outcome value :=
  match v with
  | PyDict d =>
      match dict_get k d with
      | Some x => Returned x
      | None => Returned default
      end
  | _ => Raised (Builtin AttributeError)
  end.

(** *** The world *)

Inductive recv_event : Type :=
| Data (chunk : list byte)
| TimedOut
| Failed (msg : string).

Inductive level : Type := INFO | WARNING.

(** What the environment will do ([connects], [sends], [recvs]: the results
    of the successive calls of [connect], [sendall] and [recv], where [None]
    is success and an exhausted script means success, resp. a closed peer)
    and what the module has done to it so far ([sent], [closed], [slept],
    [logged]). *)
Record world : Type := {
  connects : list (option string);
  sends : list (option string);
  recvs : list recv_event;
  sent : list (list byte);
  closed : nat;
  slept : list Q;
  logged : list (level * string)
}.

Definition set_connects (x : list (option string)) (w : world) : world :=
  {| connects := x; sends := sends w; recvs := recvs w; sent := sent w;
     closed := closed w; slept := slept w; logged := logged w |}.
Definition set_sends (x : list (option string)) (w : world) : world :=
  {| connects := connects w; sends := x; recvs := recvs w; sent := sent w;
     closed := closed w; slept := slept w; logged := logged w |}.
Definition set_recvs (x : list recv_event) (w : world) : world :=
  {| connects := connects w; sends := sends w; recvs := x; sent := sent w;
     closed := closed w; slept := slept w; logged := logged w |}.
Definition set_sent (x : list (list byte)) (w : world) : world :=
  {| connects := connects w; sends := sends w; recvs := recvs w; sent := x;
     closed := closed w; slept := slept w; logged := logged w |}.
Definition set_closed (x : nat) (w : world) : world :=
  {| connects := connects w; sends := sends w; recvs := recvs w; sent := sent w;
     closed := x; slept := slept w; logged := logged w |}.
Definition set_slept (x : list Q) (w : world) : world :=
  {| connects := connects w; sends := sends w; recvs := recvs w; sent := sent w;
     closed := closed w; slept := x; logged := logged w |}.
Definition set_logged (x : list (level * string)) (w : world) : world :=
  {| connects := connects w; sends := sends w; recvs := recvs w; sent := sent w;
     closed := closed w; slept := slept w; logged := x |}.

(** *** Methods: state of [self], state of the world, result or exception *)

Definition M (S A : Type) : Type := S -> world -> outcome A * S * world.

Definition ret {S A} (a : A) : M S A := fun self w => (Returned a, self, w).

Definition raise {S A} (e : exn) : M S A := fun self w => (Raised e, self, w).

Definition bind {S A B} (m : M S A) (k : A -> M S B) : M S B :=
  fun self w =>
    match m self w with
    | (Returned a, self', w') => k a self' w'
    | (Raised e, self', w') => (Raised e, self', w')
    end.

Definition lift {S A} (o : outcome A) : M S A :=
  match o with
  | Returned a => ret a
  | Raised e => raise e
  end.

Definition get_self {S} : M S S := fun self w => (Returned self, self, w).

(** [try: body / except <class> as e: handler]: [handler e] is [None] when
    the clause does not match [e], which then propagates. *)
Definition try_except {S A} (body : M S A) (handler : exn -> option (M S A))
  : M S A :=
  fun self w =>
    match body self w with
    | (Returned a, self', w') => (Returned a, self', w')
    | (Raised e, self', w') =>
        match handler e with
        | Some h => h self' w'
        | None => (Raised e, self', w')
        end
    end.

(** [try: body / finally: cleanup]: the cleanup runs on every exit of the
    body, and an exception of the cleanup replaces the body's result. *)
Definition try_finally {S A} (body : M S A) (cleanup : M S unit) : M S A :=
  fun self w =>
    match body self w with
    | (r, self', w') =>
        match cleanup self' w' with
        | (Returned _, self'', w'') => (r, self'', w'')
        | (Raised e, self'', w'') => (Raised e, self'', w'')
        end
    end.

Definition logger (lv : level) (msg : string) {S} : M S unit :=
  fun self w => (Returned tt, self, set_logged (logged w ++ [(lv, msg)])%list w).

(** [time.sleep(secs)] refuses a negative duration. *)
Definition time_sleep {S} (secs : Q) : M S unit :=
  fun self w =>
    if Qle_bool 0 secs
    then (Returned tt, self, set_slept (slept w ++ [secs])%list w)
    else (Raised (Builtin ValueError), self, w).

(** [for x in v]: the items a [for] clause draws from [v]. *)
Definition py_iter (v : value) : outcome (list value) :=
  match v with
  | PyList l => Returned l
  | PyDict d => Returned (map (fun kv => PyStr (fst kv)) d)
  | PyStr s => Returned (map (fun c => PyStr (str1 c)) (list_ascii_of_string s))
  | PyNone | PyBool _ | PyInt _ => Raised (Builtin TypeError)
  end.

(** [[f(x) for x in items]]: the items in order, up to the first failure. *)
Fixpoint comprehension {A B} (f : A -> outcome B) (items : list A)
  : outcome (list B) :=
  match items with
  | [] => Returned []
  | x :: rest =>
      match f x with
      | Returned y =>
          match comprehension f rest with
          | Returned ys => Returned (y :: ys)
          | Raised e => Raised e
          end
      | Raised e => Raised e
      end
  end.

(** [with manager as x: body], for a manager whose [__exit__] returns
    [None]: [__exit__] runs on every exit of the body and swallows nothing;
    it does not run when [__enter__] raises. *)
Definition with_statement {S A B} (enter : M S A) (exit : M S unit)
    (body : A -> M S B) : M S B :=
  bind enter (fun x => try_finally (body x) exit).

End Env.

Declare Scope method_scope.
Delimit Scope method_scope with method.
Notation "x <- m ;; k" := (Env.bind m (fun x => k))
  (at level 61, m at next level, right associativity) : method_scope.
Notation "m ;;; k" := (Env.bind m (fun _ => k))
  (at level 61, right associativity) : method_scope.

(** ** [class QGAConnection] (lines 37-165) *)

Module QGAConnection.
Import Py Env.
Local Open Scope method_scope.

(** The socket object: the module only ever changes its deadline
    ([None] is the blocking mode a fresh socket starts in). *)
Record socket : Type := { sock_timeout : option Q }.

Record t : Type := {
  socket_path : string;
  timeout : Q;
  _sock : option socket
}.

Definition __init__ (socket_path : string) (timeout : Q) : t :=
  {| socket_path := socket_path; timeout := timeout; _sock := None |}.

Definition set_sock (s : option socket) : M t unit :=
  fun self w =>
    (Returned tt,
     {| socket_path := socket_path self; timeout := timeout self; _sock := s |},
     w).

(** *** The methods of [self._sock] *)

(** A method call on [self._sock]; on [None] the attribute lookup fails. *)
Definition on_sock {A} (f : socket -> M t A) : M t A :=
  self <- get_self ;;
  match _sock self with
  | Some s => f s
  | None => raise (Builtin AttributeError)
  end.

(** [settimeout(v)] refuses a negative deadline. *)
Definition sock_settimeout (v : Q) : M t unit :=
  on_sock (fun _ =>
    if Qle_bool 0 v
    then set_sock (Some {| sock_timeout := Some v |})
    else raise (Builtin ValueError)).

Definition sock_connect (path : string) : M t unit :=
  on_sock (fun _ => fun self w =>
    match connects w with
    | [] => (Returned tt, self, w)
    | None :: rest => (Returned tt, self, set_connects rest w)
    | Some msg :: rest => (Raised (SocketError msg), self, set_connects rest w)
    end).

Definition sock_sendall (data : list byte) : M t unit :=
  on_sock (fun _ => fun self w =>
    match sends w with
    | [] => (Returned tt, self, set_sent (sent w ++ [data])%list w)
    | None :: rest =>
        (Returned tt, self, set_sent (sent w ++ [data])%list (set_sends rest w))
    | Some msg :: rest => (Raised (SocketError msg), self, set_sends rest w)
    end).

(** [recv(bufsize)]: the next entry of the script is what this call returns
    (the script is trusted to respect [bufsize]); an empty chunk, or the end
    of the script, is the orderly close of the peer. *)
Definition sock_recv (bufsize : Z) : M t (list byte) :=
  on_sock (fun _ => fun self w =>
    match recvs w with
    | [] => (Returned [], self, w)
    | Data chunk :: rest => (Returned chunk, self, set_recvs rest w)
    | TimedOut :: rest => (Raised SocketTimeout, self, set_recvs rest w)
    | Failed msg :: rest => (Raised (SocketError msg), self, set_recvs rest w)
    end).

Definition sock_close : M t unit :=
  on_sock (fun _ => fun self w => (Returned tt, self, set_closed (S (closed w)) w)).

(** *** [connect] (lines 57-65) *)

Definition connect : M t unit :=
  try_except
    (set_sock (Some {| sock_timeout := None |}) ;;;
     self <- get_self ;;
     sock_settimeout (timeout self) ;;;
     sock_connect (socket_path self) ;;;
     logger INFO ("Connected to QGA at " ++ socket_path self))
    (fun e =>
       match socket_error_text e with
       | Some text =>
           Some (self <- get_self ;;
                 raise (Qga QGAConnectionError
                          ("Failed to connect to " ++ socket_path self
                             ++ ": " ++ text)))
       | None => None
       end).

(** *** [disconnect] (lines 67-72) *)

Definition disconnect : M t unit :=
  self <- get_self ;;
  match _sock self with
  | Some _ =>
      sock_close ;;;
      set_sock None ;;;
      logger INFO "Disconnected from QGA"
  | None => ret tt
  end.

(** *** [send_command] (lines 74-156) *)

Section SendCommand.
Context {rt : Runtime}.

(** [b'\n' in response_data or response_data.endswith(b'}')] (line 124) *)
Definition looks_ended (response_data : list byte) : bool :=
  existsb (Byte.eqb x0a) response_data
  || match rev response_data with
     | b :: _ => Byte.eqb b x7d
     | [] => false
     end.

(** How one pass through the body of the [while True] loop ends. *)
Inductive flow : Type := Continue | Break.

(** The short extra read after an apparent end of the reply
    (lines 126-137): the deadline of the socket is lowered to a tenth of a
    second for one [recv] and set back in the [finally] clause. *)
Definition secondary_read (response_data : list byte)
  : M t (flow * list byte) :=
  sock_settimeout (1 # 10) ;;;
  try_finally
    (try_except
       (extra <- sock_recv 1024 ;;
        match extra with
        | [] => ret (Break, response_data)
        | _ :: _ => ret (Continue, (response_data ++ extra)%list)
        end)
       (fun e =>
          match e with
          | SocketTimeout => Some (ret (Break, response_data))
          | _ => None
          end))
    (self <- get_self ;; sock_settimeout (timeout self)).

(** The receive loop (lines 110-138).  [fuel] bounds the number of passes;
    [receive_fuel_enough] shows that one more than the length of the
    script is never used up. *)
Fixpoint receive (fuel : nat) (response_data : list byte) : M t (list byte) :=
  match fuel with
  | O => ret response_data
  | S fuel' =>
      chunk <- sock_recv 4096 ;;
      match chunk with
      | [] => ret response_data
      | _ :: _ =>
          let response_data := (response_data ++ chunk)%list in
          match json_loads response_data with
          | Parsed _ => ret response_data
          | NotJSON _ | NotUTF8 =>
              if looks_ended response_data then
                step <- secondary_read response_data ;;
                match step with
                | (Break, data) => ret data
                | (Continue, data) => receive fuel' data
                end
              else receive fuel' response_data
          end
      end
  end.

Definition receive_all : M t (list byte) :=
  fun self w => receive (S (List.length (recvs w))) [] self w.

(** The request dictionary (lines 93-95). *)
Definition build_request (command : string) (arguments : option dict) : dict :=
  let request := [("execute", PyStr command)] in
  match arguments with
  | Some a =>
      if truthy (PyDict a)
      then dict_set "arguments" (PyDict a) request
      else request
  | None => request
  end.

(** The bytes handed to [sendall] (lines 98 and 102). *)
Definition wire_bytes (command : string) (arguments : option dict) : list byte :=
  let request_json := dumps (PyDict (build_request command arguments))
                        ++ str1 newline in
  encode_utf8 request_json.

(** The first half of the method (lines 89-142): the connection check, the
    request, and the accumulation of the reply.  The two [logger.debug]
    calls are below the level the module configures (INFO) and leave no
    record. *)
Definition transmit (command : string) (arguments : option dict)
  : M t (list byte) :=
  self <- get_self ;;
  match _sock self with
  | None => raise (Qga QGAConnectionError "Not connected to QGA socket")
  | Some _ =>
      try_except
        (sock_sendall (wire_bytes command arguments))
        (fun e =>
           match socket_error_text e with
           | Some text =>
               Some (raise (Qga QGAConnectionError
                              ("Failed to send command: " ++ text)))
           | None => None
           end) ;;;
      try_except receive_all
        (fun e =>
           match e with
           | SocketTimeout =>
               Some (raise (Qga QGAConnectionError
                              "Timeout waiting for response"))
           | SocketError text =>
               Some (raise (Qga QGAConnectionError
                              ("Failed to receive response: " ++ text)))
           | _ => None
           end)
  end.

(** The whole method: [transmit], then the parse and the error check
    (lines 144-156). *)
Definition send_command (command : string) (arguments : option dict)
  : M t value :=
  response_data <- transmit command arguments ;;
  response <-
    match json_loads response_data with
    | Parsed v => ret v
    | NotJSON text =>
        raise (Qga QGAProtocolError ("Invalid JSON response: " ++ text))
    | NotUTF8 => raise (Builtin UnicodeDecodeError)
    end ;;
  has_error <- lift (py_in "error" response) ;;
  if has_error : bool then
    err <- lift (py_getitem response "error") ;;
    error_msg <- lift (py_get err "desc" (PyStr "Unknown error")) ;;
    raise (Qga QGAProtocolError ("QGA error: " ++ py_str error_msg))
  else ret response.

End SendCommand.

(** *** The context manager (lines 158-165) *)

Definition __enter__ : M t t := connect ;;; get_self.

Definition __exit__ : M t unit := disconnect.

End QGAConnection.

(** ** [class QGAClient] (lines 168-381) *)

Module QGAClient.
Import Py Env.
Local Open Scope method_scope.

Record t : Type := {
  socket_path : string;
  timeout : Q;
  poll_interval : Q;
  max_poll_retries : Z;
  _connection : option QGAConnection.t
}.

Definition __init__ (socket_path : string) (timeout poll_interval : Q)
    (max_poll_retries : Z) : t :=
  {| socket_path := socket_path; timeout := timeout;
     poll_interval := poll_interval; max_poll_retries := max_poll_retries;
     _connection := None |}.

(** The constructor's defaults (lines 176-177). *)
Definition default : t := __init__ "/tmp/qga.sock" 30 (1 # 10) 300.

Definition set_connection (c : option QGAConnection.t) : M t unit :=
  fun self w =>
    (Returned tt,
     {| socket_path := socket_path self; timeout := timeout self;
        poll_interval := poll_interval self;
        max_poll_retries := max_poll_retries self; _connection := c |},
     w).

(** A method call on [self._connection]: the connection object is owned by
    the client alone, so its new state is stored back. *)
Definition on_connection {A} (m : M QGAConnection.t A) : M t A :=
  fun self w =>
    match _connection self with
    | Some c =>
        match m c w with
        | (r, c', w') =>
            match set_connection (Some c') self w' with
            | (_, self', w'') => (r, self', w'')
            end
        end
    | None => (Raised (Builtin AttributeError), self, w)
    end.

(** *** [connect], [disconnect], [_ensure_connected] (lines 193-207) *)

Definition connect : M t unit :=
  self <- get_self ;;
  set_connection
    (Some (QGAConnection.__init__ (socket_path self) (timeout self))) ;;;
  on_connection QGAConnection.connect.

Definition disconnect : M t unit :=
  self <- get_self ;;
  match _connection self with
  | Some _ =>
      on_connection QGAConnection.disconnect ;;;
      set_connection None
  | None => ret tt
  end.

Definition _ensure_connected : M t unit :=
  self <- get_self ;;
  match _connection self with
  | Some _ => ret tt
  | None => connect
  end.

Section Commands.
Context {rt : Runtime}.

(** *** [ping] (lines 211-220) *)

Definition ping : M t bool :=
  _ensure_connected ;;;
  response <- on_connection (QGAConnection.send_command "guest-ping" None) ;;
  lift (py_in "return" response).

(** *** [exec_command] (lines 279-310) *)

(** The argument dictionary of the launch (lines 295-307);
    [command[0]] fails on an empty list. *)
Definition launch_arguments (command : list string) (capture_output : bool)
    (input_data : option string) (env : option (list string)) : outcome dict :=
  match command with
  | [] => Raised (Builtin IndexError)
  | path :: rest =>
      let arguments :=
        [("path", PyStr path); ("capture-output", PyBool capture_output)] in
      let arguments :=
        match rest with
        | _ :: _ => dict_set "arg" (PyList (map PyStr rest)) arguments
        | [] => arguments
        end in
      let arguments :=
        match input_data with
        | Some text =>
            if truthy (PyStr text)
            then dict_set "input-data"
                   (PyStr (b64encode (encode_utf8 text))) arguments
            else arguments
        | None => arguments
        end in
      let arguments :=
        match env with
        | Some ((_ :: _) as vars) =>
            dict_set "env" (PyList (map PyStr vars)) arguments
        | Some [] | None => arguments
        end in
      Returned arguments
  end.

Definition exec_command (command : list string) (capture_output : bool)
    (input_data : option string) (env : option (list string)) : M t value :=
  _ensure_connected ;;;
  arguments <- lift (launch_arguments command capture_output input_data env) ;;
  response <-
    on_connection (QGAConnection.send_command "guest-exec" (Some arguments)) ;;
  payload <- lift (py_get response "return" (PyDict [])) ;;
  lift (py_get payload "pid" PyNone).

(** *** [get_exec_status] (lines 312-324) *)

Definition get_exec_status (pid : value) : M t value :=
  _ensure_connected ;;;
  response <-
    on_connection
      (QGAConnection.send_command "guest-exec-status" (Some [("pid", pid)])) ;;
  lift (py_get response "return" (PyDict [])).

(** *** [run_command] (lines 326-381) *)

(** One output stream (lines 363-367 and 369-373): the field, when present,
    is decoded into [result[key]]; a failure of the decoding is caught and
    logged, and leaves the entry as it was. *)
Definition decode_stream (status : dict) (field key label : string)
    (result : dict) : M t dict :=
  match dict_get field status with
  | Some blob =>
      match b64decode_utf8 blob with
      | inl text => ret (dict_set key (PyStr text) result)
      | inr e =>
          logger WARNING ("Failed to decode " ++ label ++ ": " ++ e) ;;;
          ret result
      end
  | None => ret result
  end.

(** The body of [if status.get("exited", False):] (lines 354-376).
    [status.get] exists on a dictionary only. *)
Definition completed (status : value) : M t value :=
  match status with
  | PyDict d =>
      let exitcode :=
        match dict_get "exitcode" d with
        | Some code => code
        | None => PyInt (-1)
        end in
      let result :=
        [("exitcode", exitcode); ("exited", PyBool true);
         ("stdout", PyStr ""); ("stderr", PyStr "")] in
      result <- decode_stream d "out-data" "stdout" "stdout" result ;;
      result <- decode_stream d "err-data" "stderr" "stderr" result ;;
      code <- lift (py_getitem (PyDict result) "exitcode") ;;
      logger INFO ("Command completed with exit code: " ++ py_str code) ;;;
      ret (PyDict result)
  | _ => raise (Builtin AttributeError)
  end.

(** The [while retries < self.max_poll_retries] loop (lines 349-381).
    [remaining] is the number of passes the loop condition still allows,
    [max_poll_retries - retries]; when none is left the loop falls through
    to the final [raise]. *)
Fixpoint poll (remaining : nat) (retries : Z) (pid : value) : M t value :=
  match remaining with
  | O =>
      self <- get_self ;;
      raise (Qga QGAError
               ("Command execution timeout after "
                  ++ str_float (inject_Z retries * poll_interval self)%Q
                  ++ " seconds"))
  | S remaining' =>
      status <- get_exec_status pid ;;
      exited <- lift (py_get status "exited" (PyBool false)) ;;
      if truthy exited then completed status
      else
        self <- get_self ;;
        time_sleep (poll_interval self) ;;;
        poll remaining' (retries + 1) pid
  end.

Definition run_command (command : list string) (capture_output : bool)
    (input_data : option string) (env : option (list string)) : M t value :=
  pid <- exec_command command capture_output input_data env ;;
  logger INFO ("Executing command: " ++ join_words command
                 ++ " (PID: " ++ py_str pid ++ ")") ;;;
  self <- get_self ;;
  poll (Z.to_nat (max_poll_retries self)) 0 pid.

(** *** The one-request methods (lines 222-275 and 385-614) *)

Definition get_info : M t value :=
  _ensure_connected ;;;
  response <- on_connection (QGAConnection.send_command "guest-info" None) ;;
  lift (py_get response "return" (PyDict [])).

Definition get_osinfo : M t value :=
  _ensure_connected ;;;
  response <-
    on_connection (QGAConnection.send_command "guest-get-osinfo" None) ;;
  lift (py_get response "return" (PyDict [])).

Definition get_hostname : M t value :=
  _ensure_connected ;;;
  response <-
    on_connection (QGAConnection.send_command "guest-get-host-name" None) ;;
  payload <- lift (py_get response "return" (PyDict [])) ;;
  lift (py_get payload "host-name" (PyStr "")).

Definition get_users : M t value :=
  _ensure_connected ;;;
  response <-
    on_connection (QGAConnection.send_command "guest-get-users" None) ;;
  lift (py_get response "return" (PyList [])).

Definition get_timezone : M t value :=
  _ensure_connected ;;;
  response <-
    on_connection (QGAConnection.send_command "guest-get-timezone" None) ;;
  lift (py_get response "return" (PyDict [])).


Definition get_network_interfaces : M t value :=
  _ensure_connected ;;;
  response <-
    on_connection
      (QGAConnection.send_command "guest-network-get-interfaces" None) ;;
  lift (py_get response "return" (PyList [])).

Definition get_fsinfo : M t value :=
  _ensure_connected ;;;
  response <-
    on_connection (QGAConnection.send_command "guest-get-fsinfo" None) ;;
  lift (py_get response "return" (PyList [])).

Definition fsfreeze (mountpoints : option (list string)) : M t value :=
  _ensure_connected ;;;
  response <-
    match mountpoints with
    | Some ((_ :: _) as points) =>
        let arguments := [("mountpoints", PyList (map PyStr points))] in
        on_connection
          (QGAConnection.send_command "guest-fsfreeze-freeze-list"
             (Some arguments))
    | Some [] | None =>
        on_connection (QGAConnection.send_command "guest-fsfreeze-freeze" None)
    end ;;
  lift (py_get response "return" (PyInt 0)).

Definition fsthaw : M t value :=
  _ensure_connected ;;;
  response <-
    on_connection (QGAConnection.send_command "guest-fsfreeze-thaw" None) ;;
  lift (py_get response "return" (PyInt 0)).

Definition fsfreeze_status : M t value :=
  _ensure_connected ;;;
  response <-
    on_connection (QGAConnection.send_command "guest-fsfreeze-status" None) ;;
  lift (py_get response "return" (PyStr "")).

(** [[{"key": key} for key in keys]] (lines 509 and 529) *)
Definition keys_list (keys : list string) : value :=
  PyList (map (fun key => PyDict [("key", PyStr key)]) keys).

Definition ssh_get_authorized_keys (username : string) : M t (list value) :=
  _ensure_connected ;;;
  response <-
    on_connection
      (QGAConnection.send_command "guest-ssh-get-authorized-keys"
         (Some [("username", PyStr username)])) ;;
  payload <- lift (py_get response "return" (PyDict [])) ;;
  keys_data <- lift (py_get payload "keys" (PyList [])) ;;
  items <- lift (py_iter keys_data) ;;
  lift (comprehension (fun key => py_get key "key" (PyStr "")) items).

Definition ssh_add_authorized_keys (username : string) (keys : list string)
    (reset : bool) : M t unit :=
  _ensure_connected ;;;
  let arguments :=
    [("username", PyStr username); ("keys", keys_list keys);
     ("reset", PyBool reset)] in
  on_connection
    (QGAConnection.send_command "guest-ssh-add-authorized-keys"
       (Some arguments)) ;;;
  logger INFO ("Added " ++ str_int (Z.of_nat (List.length keys))
                 ++ " SSH key(s) for user: " ++ username).

Definition ssh_remove_authorized_keys (username : string) (keys : list string)
  : M t unit :=
  _ensure_connected ;;;
  let arguments := [("username", PyStr username); ("keys", keys_list keys)] in
  on_connection
    (QGAConnection.send_command "guest-ssh-remove-authorized-keys"
       (Some arguments)) ;;;
  logger INFO ("Removed " ++ str_int (Z.of_nat (List.length keys))
                 ++ " SSH key(s) for user: " ++ username).

Definition file_open (path mode : string) : M t value :=
  _ensure_connected ;;;
  response <-
    on_connection
      (QGAConnection.send_command "guest-file-open"
         (Some [("path", PyStr path); ("mode", PyStr mode)])) ;;
  lift (py_get response "return" (PyInt 0)).

Definition file_close (handle : value) : M t unit :=
  _ensure_connected ;;;
  on_connection
    (QGAConnection.send_command "guest-file-close" (Some [("handle", handle)])) ;;;
  ret tt.

(** [base64.b64decode(blob).decode('utf-8')] outside a [try]: the failure
    is raised.  For text it is a [ValueError] ([binascii.Error], the ASCII
    check and [UnicodeDecodeError] all derive from it); anything else is
    not bytes-like, a [TypeError]. *)
Definition b64decode_text (blob : value) : outcome string :=
  match b64decode_utf8 blob with
  | inl text => Returned text
  | inr _ =>
      Raised (Builtin match blob with
                      | PyStr _ => ValueError
                      | _ => TypeError
                      end)
  end.

Definition file_read (handle : value) (count : Z) : M t string :=
  _ensure_connected ;;;
  response <-
    on_connection
      (QGAConnection.send_command "guest-file-read"
         (Some [("handle", handle); ("count", PyInt count)])) ;;
  data <- lift (py_get response "return" (PyDict [])) ;;
  present <- lift (py_in "buf-b64" data) ;;
  if present : bool then
    blob <- lift (py_getitem data "buf-b64") ;;
    lift (b64decode_text blob)
  else ret "".

Definition file_write (handle : value) (content : string) : M t value :=
  _ensure_connected ;;;
  let content_b64 := b64encode (encode_utf8 content) in
  response <-
    on_connection
      (QGAConnection.send_command "guest-file-write"
         (Some [("handle", handle); ("buf-b64", PyStr content_b64)])) ;;
  payload <- lift (py_get response "return" (PyDict [])) ;;
  lift (py_get payload "count" (PyInt 0)).

Definition shutdown (mode : string) : M t unit :=
  _ensure_connected ;;;
  on_connection
    (QGAConnection.send_command "guest-shutdown" (Some [("mode", PyStr mode)])) ;;;
  logger INFO ("Initiated guest " ++ mode).

End Commands.


(** *** The context manager (lines 618-625) *)

Definition __enter__ : M t t := connect ;;; get_self.

Definition __exit__ : M t unit := disconnect.

(** [with client: body], the client being already constructed
    (qga_cli.py line 305, qga_wrapper.py line 630). *)
Definition with_client {A} (body : M t A) : M t A :=
  with_statement __enter__ __exit__ (fun _ => body).

End QGAClient.

(** ** The command handlers of [qga_cli.py] *)

Module CLI.
Import Py Env.
Local Open Scope method_scope.

(** What has been written to the two streams of the process, in order. *)
Record console : Type := { stdout : list string; stderr : list string }.

(** A handler runs with the client and the console. *)
Definition state : Type := (QGAClient.t * console)%type.

Definition on_client {A} (m : M QGAClient.t A) : M state A :=
  fun s w =>
    match m (fst s) w with
    | (r, client', w') => (r, (client', snd s), w')
    end.

(** [print(text, end=ending)] and [print(text, file=sys.stderr, end=ending)] *)
Definition print_out (text ending : string) : M state unit :=
  fun s w =>
    (Returned tt,
     (fst s, {| stdout := (stdout (snd s) ++ [(text ++ ending)%string])%list;
                stderr := stderr (snd s) |}), w).

Definition print_err (text ending : string) : M state unit :=
  fun s w =>
    (Returned tt,
     (fst s, {| stdout := stdout (snd s);
                stderr := (stderr (snd s) ++ [(text ++ ending)%string])%list |}), w).

Definition line_end : string := str1 newline.

(** [json.dumps(v, indent=2)]: with an indent the items of a non-empty
    container stand one per line, and the item separator is a bare comma. *)
Fixpoint spaces (n : nat) : string :=
  match n with
  | O => ""
  | S n' => String " " (spaces n')
  end.

Fixpoint dumps_indent (depth : nat) (v : value) : string :=
  let inner := line_end ++ spaces (2 * S depth) in
  let outer := line_end ++ spaces (2 * depth) in
  match v with
  | PyList [] => "[]"
  | PyList l =>
      "[" ++ inner ++ String.concat ("," ++ inner) (map (dumps_indent (S depth)) l)
          ++ outer ++ "]"
  | PyDict [] => "{}"
  | PyDict d =>
      "{" ++ inner
          ++ String.concat ("," ++ inner)
               (map (fun kv : string * value =>
                       let (k, x) := kv in
                       encode_basestring_ascii k ++ ": "
                         ++ dumps_indent (S depth) x) d)
          ++ outer ++ "}"
  | _ => dumps v
  end.

(** The fields of [args] that [cmd_exec] reads. *)
Record exec_args : Type := {
  cmd : list string;
  json : bool;
  show_exitcode : bool
}.

Section Handlers.
Context {rt : Runtime}.

(** [cmd_hostname] (lines 70-74) *)
Definition cmd_hostname : M state value :=
  hostname <- on_client QGAClient.get_hostname ;;
  print_out (py_str hostname) line_end ;;;
  ret (PyInt 0).

(** [cmd_exec] (lines 92-114).  [except QGAError] matches the three classes
    of the module, all derived from it, and nothing else. *)
Definition cmd_exec (args : exec_args) : M state value :=
  match cmd args with
  | [] =>
      print_err "Error: No command specified" line_end ;;;
      ret (PyInt 1)
  | _ :: _ =>
      try_except
        (result <- on_client (QGAClient.run_command (cmd args) true None None) ;;
         (if json args then print_out (dumps_indent 0 result) line_end
          else
            out <- lift (py_getitem result "stdout") ;;
            (if truthy out then print_out (py_str out) "" else ret tt) ;;;
            err <- lift (py_getitem result "stderr") ;;
            (if truthy err then print_err (py_str err) "" else ret tt) ;;;
            (if show_exitcode args then
               code <- lift (py_getitem result "exitcode") ;;
               print_out (line_end ++ "Exit code: " ++ py_str code) line_end
             else ret tt)) ;;;
         lift (py_getitem result "exitcode"))
        (fun e =>
           match e with
           | Qga _ msg =>
               Some (print_err ("Error executing command: " ++ msg) line_end ;;;
                     ret (PyInt 1))
           | _ => None
           end)
  end.

(** [cmd_file_read] (lines 188-198) *)
Definition cmd_file_read (path : string) : M state value :=
  try_except
    (handle <- on_client (QGAClient.file_open path "r") ;;
     content <- on_client (QGAClient.file_read handle 4096) ;;
     on_client (QGAClient.file_close handle) ;;;
     print_out content "" ;;;
     ret (PyInt 0))
    (fun e =>
       match e with
       | Qga _ msg =>
           Some (print_err ("Error reading file: " ++ msg) line_end ;;;
                 ret (PyInt 1))
       | _ => None
       end).

End Handlers.

End CLI.

(** ** A runtime and an agent for the worked examples *)

Module Sample.
Import Py Env.

(** The reply document of an agent that answers with the value [v]. *)
Definition reply (v : value) : list byte := encode_utf8 (dumps v ++ str1 newline).

Fixpoint bytes_eqb (a b : list byte) : bool :=
  match a, b with
  | [], [] => true
  | x :: a', y :: b' => Byte.eqb x y && bytes_eqb a' b'
  | _, _ => false
  end.

Definition neither : value := PyDict [].
Definition pong : value := PyDict [("return", PyDict [])].
Definition launched : value := PyDict [("return", PyDict [("pid", PyInt 7)])].
Definition running : value :=
  PyDict [("return", PyDict [("exited", PyBool false)])].
Definition exited_without_code : value :=
  PyDict [("return", PyDict [("exited", PyBool true)])].
Definition finished : value :=
  PyDict [("return", PyDict [("exited", PyBool true); ("exitcode", PyInt 0);
                             ("out-data", PyStr "aGkK")])].
Definition garbled : value :=
  PyDict [("return", PyDict [("exited", PyBool true); ("exitcode", PyInt 3);
                             ("out-data", PyStr "/w==");
                             ("err-data", PyStr "aGk")])].
Definition not_found : value :=
  PyDict [("error", PyDict [("class", PyStr "CommandNotFound");
                            ("desc", PyStr "command not found")])].

(** The replies the examples use. *)
Definition replies : list value :=
  [neither; pong; launched; running; exited_without_code; finished; garbled;
   not_found].

(** A decoder that is right on the documents of [replies] and on their
    proper prefixes, which are not JSON; the examples give it nothing else. *)
Definition loads (data : list byte) : parsed :=
  match find (fun v => bytes_eqb (reply v) data) replies with
  | Some v => Parsed v
  | None => NotJSON "Expecting value"
  end.

(** Base64 text of the examples: [aGkK] is [hi] and a line feed, [/w==] is
    the byte 255, which is not UTF-8, and [aGk] lacks its padding; the
    examples decode nothing else. *)
Definition decode (blob : value) : string + string :=
  match blob with
  | PyStr s =>
      if String.eqb s "aGkK" then inl ("hi" ++ str1 newline)
      else if String.eqb s "/w=="
      then inr "'utf-8' codec can't decode byte 0xff in position 0: invalid start byte"
      else inr "Incorrect padding"
  | _ => inr "argument should be a bytes-like object or ASCII string"
  end.

(** The text of the one duration the examples print, two polls a tenth of a
    second apart. *)
Definition seconds (q : Q) : string :=
  if Qeq_bool q (2 # 10) then "0.2" else "...".

Definition runtime : Runtime :=
  {| json_loads := loads;
     b64decode_utf8 := decode;
     container_repr := fun _ => "...";
     str_float := seconds |}.

(** A world in which every call succeeds and the agent sends [chunks]. *)
Definition agent (chunks : list recv_event) : world :=
  {| connects := []; sends := []; recvs := chunks; sent := []; closed := 0;
     slept := []; logged := [] |}.

(** An agent that answers with the documents of [answers], one per read. *)
Definition script (answers : list value) : world :=
  agent (map (fun v => Data (reply v)) answers).

(** The world once the script is used up. *)
Definition used_up (docs : list (list byte)) : world :=
  {| connects := []; sends := []; recvs := []; sent := docs; closed := 0;
     slept := []; logged := [] |}.

Definition connected : QGAConnection.t :=
  {| QGAConnection.socket_path := "/tmp/qga.sock";
     QGAConnection.timeout := 30;
     QGAConnection._sock := Some {| QGAConnection.sock_timeout := Some 30%Q |} |}.

Definition client (poll_interval : Q) (max_poll_retries : Z) : QGAClient.t :=
  QGAClient.__init__ "/tmp/qga.sock" 30 poll_interval max_poll_retries.

End Sample.

(** ** Further replies for the worked examples *)

Module Guest.
Import Py Env.

Definition keys : value :=
  PyDict [("return",
           PyDict [("keys",
                    PyList [PyDict [("key", PyStr "ssh-ed25519 AAAA alice")];
                            PyDict []])])].
Definition keys_as_texts : value :=
  PyDict [("return",
           PyDict [("keys", PyList [PyStr "ssh-ed25519 AAAA alice"])])].
Definition opened : value := PyDict [("return", PyInt 1000)].
Definition content : value :=
  PyDict [("return", PyDict [("count", PyInt 3); ("buf-b64", PyStr "aGkK");
                             ("eof", PyBool true)])].
Definition garbled_content : value :=
  PyDict [("return", PyDict [("count", PyInt 1); ("buf-b64", PyStr "/w==");
                             ("eof", PyBool true)])].
Definition written : value :=
  PyDict [("return", PyDict [("count", PyInt 3); ("eof", PyBool false)])].

Definition replies : list value :=
  (Sample.replies
     ++ [keys; keys_as_texts; opened; content; garbled_content; written])%list.

(** The decoder of [Sample], right on these documents as well. *)
Definition loads (data : list byte) : parsed :=
  match find (fun v => Sample.bytes_eqb (Sample.reply v) data) replies with
  | Some v => Parsed v
  | None => NotJSON "Expecting value"
  end.

Definition runtime : Runtime :=
  {| json_loads := loads;
     b64decode_utf8 := Sample.decode;
     container_repr := fun _ => "...";
     str_float := Sample.seconds |}.

(** A client that holds the connected connection of [Sample]. *)
Definition attached : QGAClient.t :=
  {| QGAClient.socket_path := "/tmp/qga.sock";
     QGAClient.timeout := 30;
     QGAClient.poll_interval := 1 # 10;
     QGAClient.max_poll_retries := 300;
     QGAClient._connection := Some Sample.connected |}.

(** A console on which nothing has been printed. *)
Definition blank : CLI.console := {| CLI.stdout := []; CLI.stderr := [] |}.

End Guest.

(** ** Vocabulary of the statements *)

Module Spec.
Import Py Env.

(** [m] relates the state it starts in to the state it ends in, whether it
    returns or raises. *)
Definition respects {S A : Type} (R : S -> world -> S -> world -> Prop)
    (m : M S A) : Prop :=
  forall s w r s' w', m s w = (r, s', w') -> R s w s' w'.

(** What the methods of a connection leave alone once it has a socket: its
    configuration, the presence of the socket, and every part of the world
    but the two scripts they consume and the log of sent documents. *)
Definition same_outside (self : QGAConnection.t) (w : world)
    (self' : QGAConnection.t) (w' : world) : Prop :=
  QGAConnection.socket_path self' = QGAConnection.socket_path self /\
  QGAConnection.timeout self' = QGAConnection.timeout self /\
  (QGAConnection._sock self <> None -> QGAConnection._sock self' <> None) /\
  connects w' = connects w /\ closed w' = closed w /\
  slept w' = slept w /\ logged w' = logged w.

(** The deadline of the socket is the configured one, which [settimeout]
    accepted. *)
Definition deadline_set (self : QGAConnection.t) : Prop :=
  QGAConnection._sock self
  = Some {| QGAConnection.sock_timeout := Some (QGAConnection.timeout self) |}
  /\ Qle_bool 0 (QGAConnection.timeout self) = true.

Definition keeps_deadline (self : QGAConnection.t) (w : world)
    (self' : QGAConnection.t) (w' : world) : Prop :=
  QGAConnection.timeout self' = QGAConnection.timeout self /\
  (deadline_set self -> deadline_set self').

(** The receiving side never touches what was sent. *)
Definition same_sent (self : QGAConnection.t) (w : world)
    (self' : QGAConnection.t) (w' : world) : Prop :=
  sends w' = sends w /\ sent w' = sent w.

(** The receiving side only ever shortens its script. *)
Definition shrinks (self : QGAConnection.t) (w : world)
    (self' : QGAConnection.t) (w' : world) : Prop :=
  (List.length (recvs w') <= List.length (recvs w))%nat.

(** The clock is not touched. *)
Definition same_clock {S : Type} (self : S) (w : world) (self' : S) (w' : world)
  : Prop :=
  slept w' = slept w.

(** Neither the clock nor the wire is touched. *)
Definition quiet {S : Type} (self : S) (w : world) (self' : S) (w' : world)
  : Prop :=
  slept w' = slept w /\ sent w' = sent w.

(** What the methods of a client leave alone: the two settings of the poll
    loop, and the clock. *)
Definition same_config (self : QGAClient.t) (w : world)
    (self' : QGAClient.t) (w' : world) : Prop :=
  QGAClient.poll_interval self' = QGAClient.poll_interval self /\
  QGAClient.max_poll_retries self' = QGAClient.max_poll_retries self /\
  slept w' = slept w.

(** [status.get("exited", False)] is false, resp. true, in a condition. *)
Definition not_exited (status : value) : bool :=
  match py_get status "exited" (PyBool false) with
  | Returned exited => negb (truthy exited)
  | Raised _ => false
  end.

Definition has_exited (status : value) : bool :=
  match py_get status "exited" (PyBool false) with
  | Returned exited => truthy exited
  | Raised _ => false
  end.

(** The world after [time.sleep(secs)] has returned. *)
Definition after_sleep (secs : Q) (w : world) : world :=
  set_slept (slept w ++ [secs])%list w.

(** The world after [logger.info(msg)]. *)
Definition after_info (msg : string) (w : world) : world :=
  set_logged (logged w ++ [(INFO, msg)])%list w.

Section Polls.
Context {rt : Runtime}.


(** After [k] polls that have not exited, each followed by the pause of the
    loop, the next poll returns a status that has exited: that status, and
    the state in which it was obtained. *)
Fixpoint exits_after (k : nat) (pid : value) (self : QGAClient.t) (w : world)
  : option (value * QGAClient.t * world) :=
  match QGAClient.get_exec_status pid self w with
  | (Returned status, self', w') =>
      match k with
      | O => if has_exited status then Some (status, self', w') else None
      | S k' =>
          if not_exited status && Qle_bool 0 (QGAClient.poll_interval self')
          then exits_after k' pid self'
                 (after_sleep (QGAClient.poll_interval self') w')
          else None
      end
  | (Raised _, _, _) => None
  end.

(** The status request of a poll, as bytes. *)
Definition status_request (pid : value) : list byte :=
  QGAConnection.wire_bytes "guest-exec-status" (Some [("pid", pid)]).

End Polls.


(** An exception of the socket layer itself. *)
Definition is_socket_error (e : exn) : bool :=
  match e with
  | SocketTimeout | SocketError _ => true
  | Qga _ _ | Builtin _ => false
  end.

Definition raises_socket_error {A} (o : outcome A) : bool :=
  match o with
  | Raised e => is_socket_error e
  | Returned _ => false
  end.

(** The world after the socket has accepted [data]. *)
Definition accepted (data : list byte) (w : world) : world :=
  set_sent (sent w ++ [data])%list
    match sends w with
    | [] => w
    | _ :: rest => set_sends rest w
    end.

Section Arrival.
Context {rt : Runtime}.

(** After [data], the non-empty [chunks] complete a reply, and no earlier
    point looks like its end: the accumulated bytes parse with the last
    chunk and not before, and before that they neither hold a line feed nor
    end in a closing brace. *)
Fixpoint arrives_in (data : list byte) (chunks : list (list byte)) : bool :=
  match chunks with
  | [] => false
  | chunk :: rest =>
      match chunk with
      | [] => false
      | _ :: _ =>
          match json_loads (data ++ chunk)%list with
          | Parsed _ => match rest with [] => true | _ :: _ => false end
          | NotJSON _ | NotUTF8 =>
              negb (QGAConnection.looks_ended (data ++ chunk)%list)
              && arrives_in (data ++ chunk)%list rest
          end
      end
  end.

End Arrival.

(** The client holds a connection that holds a socket. *)
Definition socket_open (self : QGAClient.t) : Prop :=
  exists c s,
    QGAClient._connection self = Some c /\ QGAConnection._sock c = Some s.

(** No socket is closed, and an open socket stays. *)
Definition keeps_open (self : QGAClient.t) (w : world)
    (self' : QGAClient.t) (w' : world) : Prop :=
  closed w' = closed w /\ (socket_open self -> socket_open self').

(** The same for a connection. *)
Definition keeps_socket (self : QGAConnection.t) (w : world)
    (self' : QGAConnection.t) (w' : world) : Prop :=
  closed w' = closed w
  /\ (QGAConnection._sock self <> None -> QGAConnection._sock self' <> None).

End Spec.

(** * Properties *)

(** ** The encoder *)

Module PyFacts.
Import Py.

Lemma all_printable_app (a b : string) :
  all_printable (a ++ b) = all_printable a && all_printable b.
Proof.
  induction a as [|c a IH]; simpl; [reflexivity|].
  now rewrite IH, andb_assoc.
Qed.

Lemma escape_char_printable (c : ascii) : all_printable (escape_char c) = true.
Proof.
  destruct c as [[] [] [] [] [] [] [] []]; vm_compute; reflexivity.
Qed.

Lemma escape_body_printable (s : string) : all_printable (escape_body s) = true.
Proof.
  induction s as [|c s IH]; simpl; [reflexivity|].
  now rewrite all_printable_app, escape_char_printable, IH.
Qed.

Lemma encode_basestring_ascii_printable (s : string) :
  all_printable (encode_basestring_ascii s) = true.
Proof.
  unfold encode_basestring_ascii. simpl.
  now rewrite all_printable_app, escape_body_printable.
Qed.

Lemma string_of_uint_printable (d : Decimal.uint) :
  all_printable (NilEmpty.string_of_uint d) = true.
Proof. induction d; simpl; auto. Qed.

Lemma str_int_printable (n : Z) : all_printable (str_int n) = true.
Proof.
  unfold str_int.
  destruct (Z.to_int n) as [d|d]; simpl;
    destruct d; simpl; auto using string_of_uint_printable.
Qed.

Lemma concat_printable (sep : string) (l : list string) :
  all_printable sep = true ->
  Forall (fun s => all_printable s = true) l ->
  all_printable (String.concat sep l) = true.
Proof.
  intros Hsep Hl. induction Hl as [|s l Hs Hl IH]; [reflexivity|].
  destruct l as [|s' l]; simpl; [exact Hs|].
  rewrite !all_printable_app, Hs, Hsep. exact IH.
Qed.

(** A document produced by [dumps] is made of printable ASCII only. *)
Lemma dumps_printable (v : value) : all_printable (dumps v) = true.
Proof.
  induction v as [| [] | n | s | l IH | d IH] using value_ind;
    try reflexivity.
  - apply str_int_printable.
  - apply encode_basestring_ascii_printable.
  - cbn [dumps]. change (all_printable
      ("[" ++ (String.concat ", " (map dumps l) ++ "]")) = true).
    rewrite !all_printable_app. rewrite concat_printable; auto.
    rewrite Forall_map. exact IH.
  - cbn [dumps]. rewrite !all_printable_app. rewrite concat_printable; auto.
    rewrite Forall_map. eapply Forall_impl; [|exact IH].
    intros [k x] Hx. simpl in Hx.
    now rewrite !all_printable_app, encode_basestring_ascii_printable, Hx.
Qed.

Lemma encode_utf8_app (a b : string) :
  encode_utf8 (a ++ b) = (encode_utf8 a ++ encode_utf8 b)%list.
Proof.
  induction a as [|c a IH]; simpl; [reflexivity|].
  now rewrite IH, app_assoc.
Qed.

Lemma printable_not_newline (c : ascii) :
  printable c = true -> utf8_char c = [byte_of_ascii c] /\ byte_of_ascii c <> x0a.
Proof.
  destruct c as [[] [] [] [] [] [] [] []]; vm_compute; intro H;
    try discriminate H; split; try reflexivity; discriminate.
Qed.

(** Printable text encodes to bytes among which there is no line feed. *)
Lemma encode_utf8_no_newline (s : string) :
  all_printable s = true -> ~ In x0a (encode_utf8 s).
Proof.
  induction s as [|c s IH]; simpl; [tauto|].
  intros H. apply andb_prop in H as [Hc Hs].
  destruct (printable_not_newline c Hc) as [-> Hne].
  simpl. intros [E|E]; [congruence|]. now apply IH.
Qed.

End PyFacts.

(** ** Relational reasoning about methods *)

Module Rel.
Import Env Spec.

Section Respects.
Context {S : Type} (R : S -> world -> S -> world -> Prop).
Hypothesis R_refl : forall s w, R s w s w.
Hypothesis R_trans :
  forall s1 w1 s2 w2 s3 w3, R s1 w1 s2 w2 -> R s2 w2 s3 w3 -> R s1 w1 s3 w3.

Lemma respects_ret {A} (a : A) : respects R (ret a).
Proof. intros s w r s' w' H. inversion H; subst. apply R_refl. Qed.

Lemma respects_raise {A} (e : exn) : respects R (@raise S A e).
Proof. intros s w r s' w' H. inversion H; subst. apply R_refl. Qed.

Lemma respects_lift {A} (o : outcome A) : respects R (lift o).
Proof. destruct o; [apply respects_ret | apply respects_raise]. Qed.

Lemma respects_get_self : respects R get_self.
Proof. intros s w r s' w' H. inversion H; subst. apply R_refl. Qed.

Lemma respects_bind {A B} (m : M S A) (k : A -> M S B) :
  respects R m -> (forall a, respects R (k a)) -> respects R (bind m k).
Proof.
  intros Hm Hk s w r s' w' H. unfold bind in H.
  destruct (m s w) as [[[a|e] s1] w1] eqn:E.
  - eapply R_trans; [eapply Hm; exact E | eapply Hk; exact H].
  - inversion H; subst. eapply Hm; exact E.
Qed.

Lemma respects_try_except {A} (body : M S A) (handler : exn -> option (M S A)) :
  respects R body ->
  (forall e h, handler e = Some h -> respects R h) ->
  respects R (try_except body handler).
Proof.
  intros Hb Hh s w r s' w' H. unfold try_except in H.
  destruct (body s w) as [[[a|e] s1] w1] eqn:E.
  - inversion H; subst. eapply Hb; exact E.
  - destruct (handler e) as [h|] eqn:Eh.
    + eapply R_trans; [eapply Hb; exact E | eapply Hh; eauto].
    + inversion H; subst. eapply Hb; exact E.
Qed.

Lemma respects_try_finally {A} (body : M S A) (cleanup : M S unit) :
  respects R body -> respects R cleanup ->
  respects R (try_finally body cleanup).
Proof.
  intros Hb Hc s w r s' w' H. unfold try_finally in H.
  destruct (body s w) as [[r1 s1] w1] eqn:E.
  destruct (cleanup s1 w1) as [[[u|e] s2] w2] eqn:E2;
    inversion H; subst;
    (eapply R_trans; [eapply Hb; exact E | eapply Hc; exact E2]).
Qed.

End Respects.

(** A step that is known to return tells what the whole returns. *)
Lemma bind_returned {S A B} (m : M S A) (k : A -> M S B) s w a s1 w1 :
  m s w = (Returned a, s1, w1) -> bind m k s w = k a s1 w1.
Proof. intros H. unfold bind. now rewrite H. Qed.

Lemma bind_raised {S A B} (m : M S A) (k : A -> M S B) s w e s1 w1 :
  m s w = (Raised e, s1, w1) -> bind m k s w = (Raised e, s1, w1).
Proof. intros H. unfold bind. now rewrite H. Qed.

End Rel.

(** ** The connection *)

Module ConnectionFacts.
Import Py Env QGAConnection Spec Rel.
Local Open Scope method_scope.

(** *** How the receive loop and the whole method inherit a relation *)

Section Inherit.
Context {rt : Runtime}.
Variable R : t -> world -> t -> world -> Prop.
Hypothesis R_refl : forall s w, R s w s w.
Hypothesis R_trans :
  forall s1 w1 s2 w2 s3 w3, R s1 w1 s2 w2 -> R s2 w2 s3 w3 -> R s1 w1 s3 w3.
Hypothesis R_recv : forall n, respects R (sock_recv n).
Hypothesis R_secondary : forall data, respects R (secondary_read data).
Hypothesis R_sendall : forall data, respects R (sock_sendall data).

Lemma receive_respects (fuel : nat) :
  forall data, respects R (receive fuel data).
Proof.
  induction fuel as [|fuel IH]; intros data; cbn [receive].
  - now apply respects_ret.
  - apply respects_bind; [assumption | apply R_recv | intros [|b chunk]].
    + now apply respects_ret.
    + destruct (json_loads _); [now apply respects_ret | |];
        (destruct (looks_ended _); [|apply IH]);
        (apply respects_bind; [assumption | apply R_secondary |]);
        intros [[] d]; auto using respects_ret.
Qed.

Lemma transmit_respects command arguments :
  respects R (transmit command arguments).
Proof.
  unfold transmit.
  apply respects_bind; [assumption | now apply respects_get_self | intros self].
  destruct (_sock self); [|now apply respects_raise].
  apply respects_bind; [assumption | | intros _].
  - apply respects_try_except; [assumption | apply R_sendall |].
    intros e h He. destruct (socket_error_text e); inversion He; subst.
    now apply respects_raise.
  - apply respects_try_except; [assumption | |].
    + intros c w r c' w' H. unfold receive_all in H.
      eapply receive_respects; exact H.
    + intros e h He.
      destruct e; inversion He; subst; now apply respects_raise.
Qed.

Lemma send_command_respects command arguments :
  respects R (send_command command arguments).
Proof.
  unfold send_command.
  apply respects_bind; [assumption | apply transmit_respects | intros data].
  apply respects_bind; [assumption | | intros response].
  - destruct (json_loads data); auto using respects_ret, respects_raise.
  - apply respects_bind; [assumption | now apply respects_lift | intros []].
    + apply respects_bind; [assumption | now apply respects_lift | intros err].
      apply respects_bind; [assumption | now apply respects_lift | intros m].
      now apply respects_raise.
    + now apply respects_ret.
Qed.

End Inherit.

(** The secondary read is made of socket methods only. *)
Lemma secondary_read_respects (R : t -> world -> t -> world -> Prop) :
  (forall s w, R s w s w) ->
  (forall s1 w1 s2 w2 s3 w3, R s1 w1 s2 w2 -> R s2 w2 s3 w3 -> R s1 w1 s3 w3) ->
  (forall n, respects R (sock_recv n)) ->
  (forall v, respects R (sock_settimeout v)) ->
  forall data, respects R (secondary_read data).
Proof.
  intros Hrefl Htrans Hrecv Hset data. unfold secondary_read.
  apply respects_bind; [assumption | apply Hset | intros _].
  apply respects_try_finally; [assumption | |].
  - apply respects_try_except; [assumption | |].
    + apply respects_bind; [assumption | apply Hrecv |].
      intros [|b extra]; now apply respects_ret.
    + intros e h He. destruct e; inversion He; subst. now apply respects_ret.
  - apply respects_bind; [assumption | now apply respects_get_self |].
    intros self. apply Hset.
Qed.

(** *** The frame of the socket methods *)

Lemma same_outside_refl self w : same_outside self w self w.
Proof. repeat split; auto. Qed.

Lemma same_outside_trans s1 w1 s2 w2 s3 w3 :
  same_outside s1 w1 s2 w2 -> same_outside s2 w2 s3 w3 ->
  same_outside s1 w1 s3 w3.
Proof.
  unfold same_outside. intros (?&?&?&?&?&?&?) (?&?&?&?&?&?&?).
  repeat split; try congruence; auto.
Qed.

Lemma sock_recv_outside n : respects same_outside (sock_recv n).
Proof.
  intros s w r s' w' H. unfold sock_recv, on_sock, bind, get_self, raise in H.
  destruct (_sock s) eqn:Es; [|inversion H; subst; apply same_outside_refl].
  destruct (recvs w) as [|[chunk| |msg] rest];
    inversion H; subst; repeat split; auto.
Qed.

Lemma sock_settimeout_outside v : respects same_outside (sock_settimeout v).
Proof.
  intros s w r s' w' H.
  unfold sock_settimeout, on_sock, bind, get_self, raise, set_sock in H.
  destruct (_sock s) eqn:Es; [|inversion H; subst; apply same_outside_refl].
  destruct (Qle_bool 0 v); inversion H; subst; repeat split; auto.
  simpl. discriminate.
Qed.

Lemma sock_sendall_outside data : respects same_outside (sock_sendall data).
Proof.
  intros s w r s' w' H. unfold sock_sendall, on_sock, bind, get_self, raise in H.
  destruct (_sock s) eqn:Es; [|inversion H; subst; apply same_outside_refl].
  destruct (sends w) as [|[msg|] rest];
    inversion H; subst; repeat split; auto.
Qed.

Section Frames.
Context {rt : Runtime}.

Lemma send_command_outside command arguments :
  respects same_outside (send_command command arguments).
Proof.
  apply send_command_respects;
    auto using same_outside_refl, sock_recv_outside, sock_sendall_outside.
  - exact same_outside_trans.
  - apply secondary_read_respects;
      auto using same_outside_refl, sock_recv_outside, sock_settimeout_outside.
    exact same_outside_trans.
Qed.

End Frames.


(** *** The receiving side consumes the script and nothing else *)

Lemma sock_recv_shrinks n : respects shrinks (sock_recv n).
Proof.
  intros s w r s' w' H. unfold sock_recv, on_sock, bind, get_self, raise in H.
  unfold shrinks.
  destruct (_sock s); [|inversion H; subst; lia].
  destruct (recvs w) as [|[chunk| |msg] rest] eqn:Er;
    inversion H; subst; simpl; rewrite ?Er; simpl; lia.
Qed.

Lemma sock_settimeout_shrinks v : respects shrinks (sock_settimeout v).
Proof.
  intros s w r s' w' H.
  unfold sock_settimeout, on_sock, bind, get_self, raise, set_sock in H.
  unfold shrinks.
  destruct (_sock s); [|inversion H; subst; lia].
  destruct (Qle_bool 0 v); inversion H; subst; lia.
Qed.

Section Fuel.
Context {rt : Runtime}.

Lemma secondary_read_shrinks data : respects shrinks (secondary_read data).
Proof.
  apply secondary_read_respects;
    auto using sock_recv_shrinks, sock_settimeout_shrinks;
    unfold shrinks; intros; lia.
Qed.

Lemma receive_S fuel data :
  receive (S fuel) data =
  (chunk <- sock_recv 4096 ;;
   match chunk with
   | [] => ret data
   | _ :: _ =>
       let response_data := (data ++ chunk)%list in
       match json_loads response_data with
       | Parsed _ => ret response_data
       | NotJSON _ | NotUTF8 =>
           if looks_ended response_data then
             step <- secondary_read response_data ;;
             match step with
             | (Break, d) => ret d
             | (Continue, d) => receive fuel d
             end
           else receive fuel response_data
       end
   end).
Proof. reflexivity. Qed.

(** One unit of fuel per entry of the script, and one more, is enough: the
    loop gives the same result with any larger amount, so the bound of the
    model is never what ends it. *)
Lemma receive_fuel_enough (fuel : nat) :
  forall data self w,
    (List.length (recvs w) < fuel)%nat ->
    receive fuel data self w = receive (S fuel) data self w.
Proof.
  induction fuel as [|fuel IH]; intros data self w Hlen; [lia|].
  rewrite (receive_S fuel), (receive_S (S fuel)).
  destruct (sock_recv 4096 self w) as [[[chunk|e] s1] w1] eqn:E;
    [rewrite !(bind_returned _ _ _ _ _ _ _ E)
    |now rewrite !(bind_raised _ _ _ _ _ _ _ E)].
  assert (Hw1 : chunk <> [] -> (List.length (recvs w1) < fuel)%nat).
  { unfold sock_recv, on_sock, bind, get_self, raise in E.
    destruct (_sock self); [|discriminate E].
    destruct (recvs w) as [|[c| |msg] rest] eqn:Er; inversion E; subst;
      try congruence. simpl in *. intros _. lia. }
  destruct chunk as [|b chunk]; [reflexivity|].
  specialize (Hw1 ltac:(discriminate)). cbv zeta.
  destruct (json_loads _); [reflexivity| |];
    (destruct (looks_ended _); [|now apply IH]);
    (match goal with
     | |- context [secondary_read ?d] =>
         destruct (secondary_read d s1 w1) as [[[[[] d']|e] s2] w2] eqn:E2
     end;
     [rewrite !(bind_returned _ _ _ _ _ _ _ E2)
     |now rewrite !(bind_returned _ _ _ _ _ _ _ E2)
     |now rewrite !(bind_raised _ _ _ _ _ _ _ E2)]);
    apply IH; apply secondary_read_shrinks in E2; unfold shrinks in E2; lia.
Qed.

Lemma receive_fuel_more (extra : nat) :
  forall fuel data self w,
    (List.length (recvs w) < fuel)%nat ->
    receive fuel data self w = receive (extra + fuel) data self w.
Proof.
  induction extra as [|extra IH]; intros fuel data self w Hlen; [reflexivity|].
  rewrite (IH fuel data self w Hlen). apply receive_fuel_enough. lia.
Qed.

End Fuel.

(** *** The deadline of the socket *)

Lemma keeps_deadline_refl self w : keeps_deadline self w self w.
Proof. split; auto. Qed.

Lemma keeps_deadline_trans s1 w1 s2 w2 s3 w3 :
  keeps_deadline s1 w1 s2 w2 -> keeps_deadline s2 w2 s3 w3 ->
  keeps_deadline s1 w1 s3 w3.
Proof. intros [? ?] [? ?]. split; [congruence | auto]. Qed.

Lemma keeps_deadline_same self w w' : keeps_deadline self w self w'.
Proof. split; auto. Qed.

Lemma sock_recv_deadline n : respects keeps_deadline (sock_recv n).
Proof.
  intros s w r s' w' H. unfold sock_recv, on_sock, bind, get_self, raise in H.
  destruct (_sock s); [|inversion H; subst; apply keeps_deadline_same].
  destruct (recvs w) as [|[chunk| |msg] rest];
    inversion H; subst; apply keeps_deadline_same.
Qed.

Lemma sock_sendall_deadline data : respects keeps_deadline (sock_sendall data).
Proof.
  intros s w r s' w' H. unfold sock_sendall, on_sock, bind, get_self, raise in H.
  destruct (_sock s); [|inversion H; subst; apply keeps_deadline_same].
  destruct (sends w) as [|[msg|] rest];
    inversion H; subst; apply keeps_deadline_same.
Qed.

(** The secondary read lowers the deadline and sets it back, whatever the
    extra [recv] does: data, a closed peer, the short deadline, or any other
    socket failure. *)
Lemma secondary_read_deadline data : respects keeps_deadline (secondary_read data).
Proof.
  intros s w r s' w' H. split.
  - apply (secondary_read_respects same_outside) in H;
      auto using same_outside_refl, sock_recv_outside, sock_settimeout_outside.
    + apply H.
    + exact same_outside_trans.
  - intros [Hs Hq].
    unfold secondary_read, sock_settimeout, sock_recv, on_sock, try_finally,
      try_except, bind, get_self, set_sock, ret, raise in H.
    rewrite Hs in H. cbn in H.
    destruct (recvs w) as [|[[|b extra]| |msg] rest]; cbn in H;
      rewrite Hq in H; inversion H; subst; split; auto.
Qed.

End ConnectionFacts.

Module ConnectionTheorems.
Import Py Env QGAConnection Spec Rel ConnectionFacts.
Local Open Scope method_scope.

Lemma same_sent_refl self w : same_sent self w self w.
Proof. split; reflexivity. Qed.

Lemma same_sent_trans s1 w1 s2 w2 s3 w3 :
  same_sent s1 w1 s2 w2 -> same_sent s2 w2 s3 w3 -> same_sent s1 w1 s3 w3.
Proof. intros [? ?] [? ?]. split; congruence. Qed.

Lemma sock_recv_sent n : respects same_sent (sock_recv n).
Proof.
  intros s w r s' w' H. unfold sock_recv, on_sock, bind, get_self, raise in H.
  destruct (_sock s); [|inversion H; subst; apply same_sent_refl].
  destruct (recvs w) as [|[chunk| |msg] rest];
    inversion H; subst; split; reflexivity.
Qed.

Lemma sock_settimeout_sent v : respects same_sent (sock_settimeout v).
Proof.
  intros s w r s' w' H.
  unfold sock_settimeout, on_sock, bind, get_self, raise, set_sock in H.
  destruct (_sock s); [|inversion H; subst; apply same_sent_refl].
  destruct (Qle_bool 0 v); inversion H; subst; split; reflexivity.
Qed.

Section WithRuntime.
Context {rt : Runtime}.

Lemma receive_sent fuel data : respects same_sent (receive fuel data).
Proof.
  apply receive_respects;
    auto using same_sent_refl, sock_recv_sent.
  - exact same_sent_trans.
  - apply secondary_read_respects;
      auto using same_sent_refl, sock_recv_sent, sock_settimeout_sent.
    exact same_sent_trans.
Qed.

(** With a socket that accepts the bytes, the first half of the method
    hands exactly one document to the socket, whatever the reply. *)
Lemma transmit_sent command arguments self w s r self' w' :
  _sock self = Some s ->
  hd None (sends w) = None ->
  transmit command arguments self w = (r, self', w') ->
  sent w' = (sent w ++ [wire_bytes command arguments])%list.
Proof.
  intros Hs Hsend H.
  unfold transmit, bind at 1, get_self in H. rewrite Hs in H.
  unfold bind, try_except at 1, sock_sendall, on_sock, bind, get_self in H.
  rewrite Hs in H.
  destruct (sends w) as [|[msg|] rest] eqn:Es; [|discriminate Hsend|].
  - unfold try_except, receive_all in H.
    match type of H with
    | context [receive ?f ?d ?c ?v] =>
        destruct (receive f d c v) as [[r1 s1] w1] eqn:E
    end.
    apply receive_sent in E. destruct E as [_ E]. simpl in E.
    destruct r1 as [a|[| |msg|]]; inversion H; subst; exact E.
  - unfold try_except, receive_all in H.
    match type of H with
    | context [receive ?f ?d ?c ?v] =>
        destruct (receive f d c v) as [[r1 s1] w1] eqn:E
    end.
    apply receive_sent in E. destruct E as [_ E]. simpl in E.
    destruct r1 as [a|[| |msg|]]; inversion H; subst; exact E.
Qed.

(** A first half that returns has handed its document to the socket. *)
Lemma transmit_returned_sent command arguments self w data self' w' :
  transmit command arguments self w = (Returned data, self', w') ->
  sent w' = (sent w ++ [wire_bytes command arguments])%list.
Proof.
  intros H.
  destruct (_sock self) as [s|] eqn:Hs.
  - destruct (sends w) as [|[msg|] rest] eqn:Es.
    + eapply transmit_sent; eauto. now rewrite Es.
    + unfold transmit, bind at 1, get_self in H. rewrite Hs in H.
      unfold bind, try_except at 1, sock_sendall, on_sock, bind, get_self in H.
      rewrite Hs, Es in H. cbn in H. discriminate H.
    + eapply transmit_sent; eauto. now rewrite Es.
  - unfold transmit, bind, get_self in H. rewrite Hs in H. discriminate H.
Qed.

(** The parse and the error check change neither the connection nor the
    world. *)
Lemma send_command_after_transmit command arguments self w r self' w' :
  send_command command arguments self w = (r, self', w') ->
  exists r0, transmit command arguments self w = (r0, self', w').
Proof.
  unfold send_command, bind, lift, ret, raise.
  destruct (transmit command arguments self w) as [[[data|e] s1] w1];
    [|intros H; inversion H; subst; eauto].
  destruct (json_loads data) as [v| |];
    try (intros H; inversion H; subst; eauto; fail).
  destruct (py_in "error" v) as [[]|];
    try (intros H; inversion H; subst; eauto; fail).
  destruct (py_getitem v "error") as [err|];
    try (intros H; inversion H; subst; eauto; fail).
  destruct (py_get err "desc" (PyStr "Unknown error"));
    intros H; inversion H; subst; eauto.
Qed.


Lemma prefix_refl (s : string) : prefix s s = true.
Proof.
  induction s as [|c s IH]; simpl; [reflexivity|].
  destruct (ascii_dec c c); [exact IH | congruence].
Qed.

Lemma contains_suffix (p d : string) : contains d (p ++ d) = true.
Proof.
  induction p as [|c p IH].
  - change ("" ++ d) with d.
    destruct d; cbn [contains]; now rewrite prefix_refl.
  - change (String c p ++ d) with (String c (p ++ d)).
    cbn [contains]. rewrite IH. now destruct (prefix d (String c (p ++ d))).
Qed.

Lemma build_request_shape command arguments :
  build_request command arguments
  = ("execute", PyStr command)
      :: match arguments with
         | Some ((_ :: _) as a) => [("arguments", PyDict a)]
         | Some [] | None => []
         end.
Proof. destruct arguments as [[|kv a]|]; reflexivity. Qed.

Lemma wire_bytes_terminated command arguments :
  wire_bytes command arguments
  = (encode_utf8 (dumps (PyDict (build_request command arguments))) ++ [x0a])%list
  /\ ~ In x0a (encode_utf8 (dumps (PyDict (build_request command arguments)))).
Proof.
  split.
  - unfold wire_bytes. now rewrite PyFacts.encode_utf8_app.
  - apply PyFacts.encode_utf8_no_newline, PyFacts.dumps_printable.
Qed.

(** C3, as amended.  With a socket that accepts the bytes, [send_command]
    hands the socket exactly one document, whatever happens to the reply.
    The document is the [json.dumps] text of a dictionary whose first key
    is [execute], bound to the command name, followed by the key
    [arguments] exactly when a non-empty mapping was supplied (an empty
    mapping is left out like an absent one), and by nothing else; the text
    holds no line feed and is followed by one.  The bytes depend on the
    command name and the mapping only, not on the connection or the
    world. *)
Theorem wire_document command arguments self w s :
  _sock self = Some s ->
  hd None (sends w) = None ->
  let request :=
    ("execute", PyStr command)
      :: match arguments with
         | Some ((_ :: _) as a) => [("arguments", PyDict a)]
         | Some [] | None => []
         end in
  let document := encode_utf8 (dumps (PyDict request)) in
  sent (snd (send_command command arguments self w))
  = (sent w ++ [(document ++ [x0a])%list])%list
  /\ ~ In x0a document
  /\ (dict_mem "arguments" request = true
      <-> exists a, arguments = Some a /\ a <> []).
Proof.
  intros Hs Hsend. cbv zeta.
  destruct (wire_bytes_terminated command arguments) as [Hw Hn].
  split; [|split].
  - destruct (send_command command arguments self w) as [[r self'] w'] eqn:E.
    apply send_command_after_transmit in E as [r0 E].
    simpl. rewrite (transmit_sent _ _ _ _ _ _ _ _ Hs Hsend E), Hw.
    destruct arguments as [[|kv a]|]; reflexivity.
  - destruct arguments as [[|kv a]|]; exact Hn.
  - destruct arguments as [[|kv a]|]; cbn; split.
    + discriminate.
    + intros (a & Ha & Hne). inversion Ha; subst. congruence.
    + intros _. eexists; split; [reflexivity | discriminate].
    + reflexivity.
    + discriminate.
    + intros (a & Ha & _). discriminate.
Qed.

(** C10.  An empty argument mapping and no mapping at all give the same
    request dictionary, without the key [arguments], hence the same bytes
    on the wire, and [send_command] behaves the same on both in every state
    of the connection and of the world. *)
Theorem empty_arguments_same_as_none command :
  dict_mem "arguments" (build_request command (Some [])) = false
  /\ dict_mem "arguments" (build_request command None) = false
  /\ wire_bytes command (Some []) = wire_bytes command None
  /\ forall self w,
       send_command command (Some []) self w = send_command command None self w.
Proof. repeat split. Qed.

(** C1, as amended.  Once the reply has been received and decoded into a
    dictionary: without the key [error] the reply is returned whole, with
    the key [return] or without it, and nothing is raised; with the key
    [error] bound to a dictionary, [QGAProtocolError] is raised, with the key
    [return] or without it.  In both cases the connection and the world are
    left as the receive loop left them. *)
Theorem reply_classification command arguments self w data self' w' reply :
  transmit command arguments self w = (Returned data, self', w') ->
  json_loads data = Parsed (PyDict reply) ->
  (dict_mem "error" reply = false ->
   send_command command arguments self w = (Returned (PyDict reply), self', w'))
  /\ (forall err,
        dict_get "error" reply = Some (PyDict err) ->
        exists msg,
          send_command command arguments self w
          = (Raised (Qga QGAProtocolError msg), self', w')).
Proof.
  intros Ht Hp. unfold send_command.
  rewrite (bind_returned _ _ _ _ _ _ _ Ht). rewrite Hp.
  unfold bind, ret, lift, raise. cbn. unfold dict_mem. split.
  - intros He. destruct (dict_get "error" reply); [discriminate|reflexivity].
  - intros err He. rewrite He. cbn.
    destruct (dict_get "desc" err); eexists; reflexivity.
Qed.

(** C6.  An error reply whose [error] entry is a dictionary with a text
    [desc] raises [QGAProtocolError] with the message [QGA error: ] followed
    by that text, so the text occurs in the message as it was received. *)
Theorem error_description_verbatim
    command arguments self w data self' w' reply err d :
  transmit command arguments self w = (Returned data, self', w') ->
  json_loads data = Parsed (PyDict reply) ->
  dict_get "error" reply = Some (PyDict err) ->
  dict_get "desc" err = Some (PyStr d) ->
  send_command command arguments self w
  = (Raised (Qga QGAProtocolError ("QGA error: " ++ d)), self', w')
  /\ contains d ("QGA error: " ++ d) = true.
Proof.
  intros Ht Hp He Hd. split; [|apply contains_suffix].
  unfold send_command.
  rewrite (bind_returned _ _ _ _ _ _ _ Ht). rewrite Hp.
  unfold bind, ret, lift, raise. cbn. unfold dict_mem.
  rewrite He. cbn. rewrite Hd. reflexivity.
Qed.

Lemma send_command_deadline command arguments :
  respects keeps_deadline (send_command command arguments).
Proof.
  apply send_command_respects;
    auto using keeps_deadline_refl, sock_recv_deadline,
      secondary_read_deadline, sock_sendall_deadline.
  exact keeps_deadline_trans.
Qed.

(** C9.  A connection whose socket carries the configured deadline still
    carries it after [send_command], however the call ends: every lowering
    of the deadline for the secondary read is undone by the [finally]
    clause ([secondary_read_deadline]), and nothing else touches it. *)
Theorem send_command_keeps_timeout command arguments self w :
  deadline_set self ->
  let self' := snd (fst (send_command command arguments self w)) in
  deadline_set self' /\ timeout self' = timeout self.
Proof.
  intros Hd self'.
  destruct (send_command command arguments self w) as [[r s1] w1] eqn:E.
  destruct (send_command_deadline _ _ _ _ _ _ _ E) as [Kt Kd].
  subst self'. simpl. auto.
Qed.

(** [connect], when it returns, has set the deadline. *)
Lemma connect_sets_deadline self w self' w' :
  connect self w = (Returned tt, self', w') -> deadline_set self'.
Proof.
  unfold connect, try_except, bind, set_sock, get_self, sock_settimeout,
    sock_connect, on_sock, logger, raise, ret, bind, get_self. cbn.
  destruct (Qle_bool 0 (timeout self)) eqn:Eq; cbn.
  - destruct (connects w) as [|[msg|] rest]; cbn; intros H; inversion H; subst;
      split; auto.
  - discriminate.
Qed.

Lemma send_command_returned_sent command arguments self w v self' w' :
  send_command command arguments self w = (Returned v, self', w') ->
  sent w' = (sent w ++ [wire_bytes command arguments])%list
  /\ slept w' = slept w.
Proof.
  intros H. split.
  - pose proof H as H0. apply send_command_after_transmit in H0 as [r0 H0].
    destruct r0 as [data|e].
    + eapply transmit_returned_sent; eauto.
    + unfold send_command in H. rewrite (bind_raised _ _ _ _ _ _ _ H0) in H.
      discriminate H.
  - apply send_command_outside in H. apply H.
Qed.

Lemma send_command_clock command arguments :
  respects same_clock (send_command command arguments).
Proof.
  intros s w r s' w' H. apply send_command_outside in H. apply H.
Qed.

(** After a [connect] that returned, any series of commands, whatever
    their outcomes, leaves the deadline set. *)
Lemma deadline_through_session (commands : list (string * option dict)) :
  forall self w,
    deadline_set self ->
    deadline_set
      (fst (fold_left
              (fun state c =>
                 let '(_, self', w') :=
                   send_command (fst c) (snd c) (fst state) (snd state) in
                 (self', w'))
              commands (self, w))).
Proof.
  induction commands as [|[command arguments] commands IH]; intros self w Hd;
    [exact Hd|].
  cbn [fold_left fst snd].
  destruct (send_command command arguments self w) as [[r s1] w1] eqn:E.
  apply IH. now apply (send_command_deadline _ _ _ _ _ _ _ E).
Qed.

End WithRuntime.

Lemma connect_quiet : respects quiet connect.
Proof.
  intros s w r s' w'.
  unfold connect, try_except, bind, set_sock, get_self, sock_settimeout,
    sock_connect, on_sock, logger, raise, ret, bind, get_self. cbn.
  destruct (Qle_bool 0 (timeout s)); cbn.
  - destruct (connects w) as [|[msg|] rest]; cbn; intros H; inversion H; subst;
      split; reflexivity.
  - intros H; inversion H; subst; split; reflexivity.
Qed.

(** *** Disconnecting *)

Lemma disconnect_twice self w :
  let '(r1, self1, w1) := disconnect self w in
  r1 = Returned tt /\ disconnect self1 w1 = (Returned tt, self1, w1).
Proof.
  unfold disconnect, bind, get_self, sock_close, on_sock, set_sock, logger, ret,
    bind, get_self.
  destruct (_sock self) eqn:Es; cbn; rewrite ?Es; cbn; auto.
Qed.

End ConnectionTheorems.

(** ** The client *)

Module ClientFacts.
Import Py Env QGAClient Spec Rel.
Local Open Scope method_scope.

Lemma same_config_refl self w : same_config self w self w.
Proof. repeat split. Qed.

Lemma same_config_trans s1 w1 s2 w2 s3 w3 :
  same_config s1 w1 s2 w2 -> same_config s2 w2 s3 w3 -> same_config s1 w1 s3 w3.
Proof. intros (?&?&?) (?&?&?). repeat split; congruence. Qed.

Lemma set_connection_config c : respects same_config (set_connection c).
Proof. intros s w r s' w' H. inversion H; subst. repeat split. Qed.

(** A method of the connection that leaves the clock alone leaves the
    settings of the client alone. *)
Lemma on_connection_config {A} (m : M QGAConnection.t A) :
  respects same_clock m -> respects same_config (on_connection m).
Proof.
  intros Hm s w r s' w' H. unfold on_connection, set_connection in H.
  destruct (_connection s) as [c|]; [|inversion H; subst; repeat split].
  destruct (m c w) as [[r1 c1] w1] eqn:E. inversion H; subst.
  apply Hm in E. repeat split. exact E.
Qed.

Lemma connect_config : respects same_config connect.
Proof.
  unfold connect.
  apply respects_bind;
    [exact same_config_trans | apply respects_get_self, same_config_refl|].
  intros self.
  apply respects_bind;
    [exact same_config_trans | apply set_connection_config | intros _].
  apply on_connection_config.
  intros s w r s' w' H. apply ConnectionTheorems.connect_quiet in H. apply H.
Qed.

Lemma ensure_connected_config : respects same_config _ensure_connected.
Proof.
  unfold _ensure_connected.
  apply respects_bind;
    [exact same_config_trans | apply respects_get_self, same_config_refl|].
  intros self. destruct (_connection self).
  - apply respects_ret, same_config_refl.
  - apply connect_config.
Qed.

(** Making sure of the connection puts nothing on the wire. *)
Lemma ensure_connected_sent self w r self' w' :
  _ensure_connected self w = (r, self', w') -> sent w' = sent w.
Proof.
  unfold _ensure_connected, bind, get_self.
  destruct (_connection self) as [c|] eqn:Ec.
  - intros H. inversion H; subst. reflexivity.
  - unfold connect, bind, get_self, set_connection, on_connection. cbn.
    destruct (QGAConnection.connect _ w) as [[r1 c1] w1] eqn:E.
    intros H. inversion H; subst.
    apply ConnectionTheorems.connect_quiet in E. apply E.
Qed.

Section WithRuntime.
Context {rt : Runtime}.

Lemma get_exec_status_config pid : respects same_config (get_exec_status pid).
Proof.
  unfold get_exec_status.
  apply respects_bind;
    [exact same_config_trans | apply ensure_connected_config | intros _].
  apply respects_bind; [exact same_config_trans | | intros response].
  - apply on_connection_config, ConnectionTheorems.send_command_clock.
  - apply respects_lift, same_config_refl.
Qed.

Lemma exec_command_config command capture_output input_data env :
  respects same_config (exec_command command capture_output input_data env).
Proof.
  unfold exec_command.
  apply respects_bind;
    [exact same_config_trans | apply ensure_connected_config | intros _].
  apply respects_bind;
    [exact same_config_trans | apply respects_lift, same_config_refl|].
  intros arguments.
  apply respects_bind; [exact same_config_trans | | intros response].
  - apply on_connection_config, ConnectionTheorems.send_command_clock.
  - apply respects_bind;
      [exact same_config_trans | apply respects_lift, same_config_refl|].
    intros payload. apply respects_lift, same_config_refl.
Qed.

(** A poll that returns a status has put exactly one status request on the
    wire. *)
Lemma get_exec_status_sent pid self w status self' w' :
  get_exec_status pid self w = (Returned status, self', w') ->
  sent w' = (sent w ++ [status_request pid])%list.
Proof.
  unfold get_exec_status. intros H. unfold bind at 1 in H.
  destruct (_ensure_connected self w) as [[[[]|e] s0] w0] eqn:E0;
    [|discriminate H].
  apply ensure_connected_sent in E0. rewrite <- E0.
  unfold bind, on_connection, set_connection in H.
  destruct (_connection s0) as [c|]; [|discriminate H].
  destruct (QGAConnection.send_command _ _ c w0) as [[[v|e] c1] w1] eqn:E1;
    [|discriminate H].
  apply ConnectionTheorems.send_command_returned_sent in E1 as [E1 _].
  destruct (py_get v "return" (PyDict [])); inversion H; subst. exact E1.
Qed.

Lemma not_exited_get status :
  not_exited status = true ->
  exists exited,
    py_get status "exited" (PyBool false) = Returned exited
    /\ truthy exited = false.
Proof.
  unfold not_exited.
  destruct (py_get status "exited" (PyBool false)) as [x|]; [|discriminate].
  intros H. exists x. split; [reflexivity|]. now destruct (truthy x).
Qed.

Lemma has_exited_get status :
  has_exited status = true ->
  exists exited,
    py_get status "exited" (PyBool false) = Returned exited
    /\ truthy exited = true.
Proof.
  unfold has_exited.
  destruct (py_get status "exited" (PyBool false)) as [x|]; [|discriminate].
  intros H. exists x. split; [reflexivity | exact H].
Qed.

Lemma poll_S remaining retries pid :
  poll (S remaining) retries pid =
  (status <- get_exec_status pid ;;
   exited <- lift (py_get status "exited" (PyBool false)) ;;
   if truthy exited then completed status
   else
     self <- get_self ;;
     time_sleep (poll_interval self) ;;;
     poll remaining (retries + 1) pid).
Proof. reflexivity. Qed.

(** One pass of the loop over a status that has not exited. *)
Lemma poll_step remaining retries pid self w status self' w' :
  get_exec_status pid self w = (Returned status, self', w') ->
  not_exited status = true ->
  Qle_bool 0 (poll_interval self') = true ->
  poll (S remaining) retries pid self w
  = poll remaining (retries + 1) pid self'
      (after_sleep (poll_interval self') w').
Proof.
  intros E Hn Hq. rewrite poll_S.
  rewrite (bind_returned _ _ _ _ _ _ _ E).
  apply not_exited_get in Hn as (x & Hx & Ht). rewrite Hx.
  unfold lift, bind at 1, ret. rewrite Ht.
  unfold bind, get_self, time_sleep. rewrite Hq. reflexivity.
Qed.

(** One pass of the loop over a status that has exited. *)
Lemma poll_done remaining retries pid self w status self' w' :
  get_exec_status pid self w = (Returned status, self', w') ->
  has_exited status = true ->
  poll (S remaining) retries pid self w = completed status self' w'.
Proof.
  intros E Hn. rewrite poll_S.
  rewrite (bind_returned _ _ _ _ _ _ _ E).
  apply has_exited_get in Hn as (x & Hx & Ht). rewrite Hx.
  unfold lift, bind at 1, ret. now rewrite Ht.
Qed.



Lemma poll_exits (k : nat) :
  forall n retries pid self w status self' w',
    exits_after k pid self w = Some (status, self', w') ->
    (k < n)%nat ->
    poll n retries pid self w = completed status self' w'.
Proof.
  induction k as [|k IH]; intros n retries pid self w status self' w' He Hk;
    (destruct n as [|n]; [lia|]); cbn [exits_after] in He;
    destruct (get_exec_status pid self w) as [[[st|e] s1] w1] eqn:E;
    try discriminate He.
  - destruct (has_exited st) eqn:Hx; [|discriminate He].
    inversion He; subst. eapply poll_done; eauto.
  - destruct (not_exited st) eqn:Hx; [|discriminate He].
    destruct (Qle_bool 0 (poll_interval s1)) eqn:Hq; [|discriminate He].
    cbn in He. rewrite (poll_step _ _ _ _ _ _ _ _ E Hx Hq).
    apply IH; [exact He | lia].
Qed.

(** What the loop does before its first pass (lines 344-349). *)
Lemma run_command_after_launch
    command capture_output input_data env self w pid self1 w1 :
  exec_command command capture_output input_data env self w
  = (Returned pid, self1, w1) ->
  run_command command capture_output input_data env self w
  = poll (Z.to_nat (max_poll_retries self1)) 0 pid self1
      (after_info ("Executing command: " ++ join_words command
                     ++ " (PID: " ++ py_str pid ++ ")") w1).
Proof.
  intros E. unfold run_command.
  rewrite (bind_returned _ _ _ _ _ _ _ E). reflexivity.
Qed.

(** The exit code, and the streams [out] and [err], of the result that
    [completed] builds from the status dictionary [d]. *)
Lemma completed_returns d self w :
  exists out err w',
    completed (PyDict d) self w
    = (Returned
         (PyDict [("exitcode",
                   match dict_get "exitcode" d with
                   | Some code => code
                   | None => PyInt (-1)
                   end);
                  ("exited", PyBool true);
                  ("stdout", PyStr out); ("stderr", PyStr err)]),
       self, w')
    /\ (forall blob,
         dict_get "out-data" d = Some blob ->
         match b64decode_utf8 blob with
         | inl text => out = text
         | inr e =>
             out = "" /\ In (WARNING, "Failed to decode stdout: " ++ e) (logged w')
         end)
    /\ (dict_get "out-data" d = None -> out = "")
    /\ (forall blob,
         dict_get "err-data" d = Some blob ->
         match b64decode_utf8 blob with
         | inl text => err = text
         | inr e =>
             err = "" /\ In (WARNING, "Failed to decode stderr: " ++ e) (logged w')
         end)
    /\ (dict_get "err-data" d = None -> err = "").
Proof.
  unfold completed, decode_stream, bind, ret, logger, lift.
  destruct (dict_get "out-data" d) as [ob|];
    [destruct (b64decode_utf8 ob) as [ot|oe] eqn:Eo|];
    (destruct (dict_get "err-data" d) as [eb|];
     [destruct (b64decode_utf8 eb) as [et|ee] eqn:Ee|]);
    cbn; do 3 eexists; (split; [reflexivity|]);
    repeat split; intros; try discriminate;
    repeat match goal with
      | H : Some _ = Some _ |- _ => inversion H; subst; clear H
      end;
    rewrite ?Eo, ?Ee; auto;
    (split; [reflexivity|]);
    solve
      [ apply in_or_app; left; apply in_or_app; right; left; reflexivity
      | apply in_or_app; left; apply in_or_app; left;
        apply in_or_app; right; left; reflexivity ].
Qed.

End WithRuntime.
End ClientFacts.

Module ClientTheorems.
Import Py Env QGAClient Spec Rel ClientFacts.
Local Open Scope method_scope.

Section WithRuntime.
Context {rt : Runtime}.


(** C4.  After a launch that returned the handle [pid], when the poll that
    first reports an exit (after [k] polls that did not, [k] below the
    bound) returns a status without the key [exitcode], [run_command]
    returns, without raising, a result whose [exitcode] is -1 and whose
    [exited] is true. *)
Theorem missing_exitcode_is_minus_one
    command capture_output input_data env self w pid self1 w1 k d self2 w2 :
  exec_command command capture_output input_data env self w
  = (Returned pid, self1, w1) ->
  exits_after k pid self1
    (after_info ("Executing command: " ++ join_words command
                   ++ " (PID: " ++ py_str pid ++ ")") w1)
  = Some (PyDict d, self2, w2) ->
  (k < Z.to_nat (max_poll_retries self))%nat ->
  dict_get "exitcode" d = None ->
  exists result self' w',
    run_command command capture_output input_data env self w
    = (Returned (PyDict result), self', w')
    /\ dict_get "exitcode" result = Some (PyInt (-1))
    /\ dict_get "exited" result = Some (PyBool true).
Proof.
  intros E He Hk Hd.
  pose proof (exec_command_config _ _ _ _ _ _ _ _ _ E) as (Hi & Hm & Hc).
  rewrite (run_command_after_launch _ _ _ _ _ _ _ _ _ E), Hm.
  rewrite (poll_exits _ _ _ _ _ _ _ _ _ He Hk).
  destruct (completed_returns d self2 w2) as (out & err & w3 & Hr & _).
  rewrite Hd in Hr. rewrite Hr. do 3 eexists. repeat split.
Qed.



End WithRuntime.

(** C5.  [disconnect] on a connection, or on a client, that was never
    connected returns and changes nothing; and on any connection or client,
    in any world, a [disconnect] returns and a second one right after it
    returns too and changes nothing. *)
Theorem disconnect_idempotent :
  (forall path deadline w,
      QGAConnection.disconnect (QGAConnection.__init__ path deadline) w
      = (Returned tt, QGAConnection.__init__ path deadline, w))
  /\ (forall self w,
        let '(r1, self1, w1) := QGAConnection.disconnect self w in
        r1 = Returned tt
        /\ QGAConnection.disconnect self1 w1 = (Returned tt, self1, w1))
  /\ (forall path deadline interval retries w,
        disconnect (__init__ path deadline interval retries) w
        = (Returned tt, __init__ path deadline interval retries, w))
  /\ (forall self w,
        let '(r1, self1, w1) := disconnect self w in
        r1 = Returned tt /\ disconnect self1 w1 = (Returned tt, self1, w1)).
Proof.
  split; [reflexivity|]. split; [apply ConnectionTheorems.disconnect_twice|].
  split; [reflexivity|].
  intros self w. unfold disconnect. unfold bind at 1, get_self.
  destruct (_connection self) as [c|] eqn:Ec.
  - unfold bind at 1, on_connection at 1. rewrite Ec.
    pose proof (ConnectionTheorems.disconnect_twice c w) as H.
    destruct (QGAConnection.disconnect c w) as [[r1 c1] w1].
    destruct H as [-> _]. cbn. split; reflexivity.
  - unfold ret. split; [reflexivity|].
    unfold bind, get_self. now rewrite Ec.
Qed.

End ClientTheorems.

(** ** Worked examples *)

Module Examples.
Import Py Env Spec.

(** The scenarios of the specification. *)

Example ping_scenario :
  fst (fst (QGAClient.ping (rt := Sample.runtime) QGAClient.default
              (Sample.script [Sample.pong])))
  = Returned true.
Proof. vm_compute. reflexivity. Qed.

Example echo_scenario :
  fst (fst (QGAClient.run_command (rt := Sample.runtime) ["echo"; "hi"] true
              None None QGAClient.default
              (Sample.script [Sample.launched; Sample.running; Sample.finished])))
  = Returned (PyDict [("exitcode", PyInt 0); ("exited", PyBool true);
                      ("stdout", PyStr ("hi" ++ str1 newline));
                      ("stderr", PyStr "")]).
Proof. vm_compute. reflexivity. Qed.

Example b64encode_padding :
  b64encode (encode_utf8 ("hi" ++ str1 newline)) = "aGkK"
  /\ b64encode (encode_utf8 "hi") = "aGk="
  /\ b64encode (encode_utf8 "h") = "aA==".
Proof. repeat split. Qed.

(** A quote, a line feed and a letter outside ASCII (e with an acute
    accent, code point 233) in a command name: each is escaped, and the
    document stays on one line. *)
Example dumps_escapes :
  dumps (PyStr (String dquote (String newline (str1 "233"%char))))
  = quoted (String backslash (str1 dquote) ++ String backslash "n"
              ++ String backslash "u00e9")
  /\ encode_utf8 (str1 "233"%char) = [xc3; xa9].
Proof. split; reflexivity. Qed.

Example launch_arguments_full :
  QGAClient.launch_arguments ["ls"; "-la"] true (Some "hi") (Some ["A=1"])
  = Returned [("path", PyStr "ls"); ("capture-output", PyBool true);
              ("arg", PyList [PyStr "-la"]); ("input-data", PyStr "aGk=");
              ("env", PyList [PyStr "A=1"])]
  /\ QGAClient.launch_arguments [] true None None = Raised (Builtin IndexError)
  /\ QGAClient.launch_arguments ["ls"] false (Some "") (Some [])
     = Returned [("path", PyStr "ls"); ("capture-output", PyBool false)].
Proof. repeat split. Qed.

(** *** C1 *)

Lemma reply_classification_witness :
  (dict_mem "error" [("return", PyDict [])] = false ->
   QGAConnection.send_command (rt := Sample.runtime) "guest-ping" None
     Sample.connected (Sample.script [Sample.pong])
   = (Returned Sample.pong, Sample.connected,
      Sample.used_up [QGAConnection.wire_bytes "guest-ping" None]))
  /\ (forall err,
        dict_get "error" [("return", PyDict [])] = Some (PyDict err) ->
        exists msg,
          QGAConnection.send_command (rt := Sample.runtime) "guest-ping" None
            Sample.connected (Sample.script [Sample.pong])
          = (Raised (Qga QGAProtocolError msg), Sample.connected,
             Sample.used_up [QGAConnection.wire_bytes "guest-ping" None])).
Proof.
  apply (ConnectionTheorems.reply_classification (rt := Sample.runtime)
           "guest-ping" None Sample.connected (Sample.script [Sample.pong])
           (Sample.reply Sample.pong));
    vm_compute; reflexivity.
Defined.

(** A reply with neither key is returned to the caller: nothing is raised. *)
Lemma reply_with_neither_key_is_returned :
  dict_mem "return" [] = false
  /\ dict_mem "error" [] = false
  /\ QGAConnection.send_command (rt := Sample.runtime) "guest-ping" None
       Sample.connected (Sample.script [Sample.neither])
     = (Returned (PyDict []), Sample.connected,
        Sample.used_up [QGAConnection.wire_bytes "guest-ping" None]).
Proof. vm_compute. repeat split. Qed.

(** *** C6 *)

Lemma error_description_verbatim_witness :
  QGAConnection.send_command (rt := Sample.runtime) "guest-exec" None
    Sample.connected (Sample.script [Sample.not_found])
  = (Raised (Qga QGAProtocolError "QGA error: command not found"),
     Sample.connected,
     Sample.used_up [QGAConnection.wire_bytes "guest-exec" None])
  /\ contains "command not found" "QGA error: command not found" = true.
Proof.
  apply (ConnectionTheorems.error_description_verbatim (rt := Sample.runtime)
           "guest-exec" None Sample.connected
           (Sample.script [Sample.not_found])
           (Sample.reply Sample.not_found) Sample.connected
           (Sample.used_up [QGAConnection.wire_bytes "guest-exec" None])
           [("error", PyDict [("class", PyStr "CommandNotFound");
                              ("desc", PyStr "command not found")])]
           [("class", PyStr "CommandNotFound");
            ("desc", PyStr "command not found")]
           "command not found");
    vm_compute; reflexivity.
Defined.

(** *** C3 *)

Lemma wire_document_witness :
  let request :=
    [("execute", PyStr "guest-exec-status");
     ("arguments", PyDict [("pid", PyInt 7)])] in
  let document := encode_utf8 (dumps (PyDict request)) in
  sent (snd (QGAConnection.send_command (rt := Sample.runtime)
               "guest-exec-status" (Some [("pid", PyInt 7)])
               Sample.connected (Sample.script [Sample.running])))
  = ([] ++ [(document ++ [x0a])%list])%list
  /\ ~ In x0a document
  /\ (dict_mem "arguments" request = true
      <-> exists a, Some [("pid", PyInt 7)] = Some a /\ a <> []).
Proof.
  exact (ConnectionTheorems.wire_document (rt := Sample.runtime)
           "guest-exec-status" (Some [("pid", PyInt 7)])
           Sample.connected (Sample.script [Sample.running])
           {| QGAConnection.sock_timeout := Some 30%Q |} eq_refl eq_refl).
Defined.

(** An empty mapping is supplied, and the document has no [arguments]. *)
Lemma empty_mapping_is_supplied_but_left_out :
  Some ([] : dict) <> None
  /\ dict_mem "arguments" (QGAConnection.build_request "guest-ping" (Some []))
     = false
  /\ sent (snd (QGAConnection.send_command (rt := Sample.runtime)
                  "guest-ping" (Some []) Sample.connected
                  (Sample.script [Sample.pong])))
     = [encode_utf8 ("{" ++ quoted "execute" ++ ": " ++ quoted "guest-ping"
                         ++ "}" ++ str1 newline)].
Proof. split; [discriminate|]. vm_compute. split; reflexivity. Qed.

(** *** C9 *)

Lemma send_command_keeps_timeout_witness :
  let self' :=
    snd (fst (QGAConnection.send_command (rt := Sample.runtime) "guest-ping"
                None Sample.connected
                (Sample.agent
                   [Data (firstn 13 (Sample.reply Sample.pong)); TimedOut;
                    Data (skipn 13 (Sample.reply Sample.pong))]))) in
  deadline_set self'
  /\ QGAConnection.timeout self' = QGAConnection.timeout Sample.connected.
Proof.
  apply (ConnectionTheorems.send_command_keeps_timeout (rt := Sample.runtime)).
  split; reflexivity.
Defined.

(** In that run the deadline was lowered and set back: the first chunk ends
    in a brace, the secondary read times out, and the reply is cut short. *)
Example secondary_read_taken :
  QGAConnection.looks_ended (firstn 13 (Sample.reply Sample.pong)) = true
  /\ match fst (fst (QGAConnection.send_command (rt := Sample.runtime)
                       "guest-ping" None Sample.connected
                       (Sample.agent
                          [Data (firstn 13 (Sample.reply Sample.pong));
                           TimedOut;
                           Data (skipn 13 (Sample.reply Sample.pong))]))) with
     | Raised (Qga QGAProtocolError _) => True
     | _ => False
     end.
Proof. vm_compute. split; [reflexivity | exact I]. Qed.

(** *** C2 *)



(** *** C4 *)

Lemma missing_exitcode_is_minus_one_witness :
  exists result self' w',
    QGAClient.run_command (rt := Sample.runtime) ["true"] true None None
      (Sample.client (1 # 10) 5)
      (Sample.script
         [Sample.launched; Sample.running; Sample.exited_without_code])
    = (Returned (PyDict result), self', w')
    /\ dict_get "exitcode" result = Some (PyInt (-1))
    /\ dict_get "exited" result = Some (PyBool true).
Proof.
  eapply (ClientTheorems.missing_exitcode_is_minus_one (rt := Sample.runtime)
            ["true"] true None None (Sample.client (1 # 10) 5)
            (Sample.script
               [Sample.launched; Sample.running; Sample.exited_without_code])
            (PyInt 7) _ _ 1%nat [("exited", PyBool true)]).
  - vm_compute; reflexivity.
  - vm_compute; reflexivity.
  - vm_compute; lia.
  - reflexivity.
Defined.

(** *** C7 *)


(** The result of that run, and its log. *)
Example garbled_scenario :
  let out :=
    QGAClient.run_command (rt := Sample.runtime) ["cat"; "blob"] true None
      None (Sample.client (1 # 10) 5)
      (Sample.script [Sample.launched; Sample.running; Sample.garbled]) in
  fst (fst out)
  = Returned (PyDict [("exitcode", PyInt 3); ("exited", PyBool true);
                      ("stdout", PyStr ""); ("stderr", PyStr "")])
  /\ map fst (logged (snd out)) = [INFO; INFO; WARNING; WARNING; INFO].
Proof. vm_compute. split; reflexivity. Qed.

(** *** C8 *)


(** The run of that client: the handle is [None], the one poll asks for the
    status of [null], and the result is the default exit code. *)
Example none_handle_scenario :
  let out :=
    QGAClient.run_command (rt := Sample.runtime) ["true"] true None None
      (Sample.client (1 # 10) 1)
      (Sample.script [Sample.pong; Sample.exited_without_code]) in
  fst (fst out)
  = Returned (PyDict [("exitcode", PyInt (-1)); ("exited", PyBool true);
                      ("stdout", PyStr ""); ("stderr", PyStr "")])
  /\ nth 1 (sent (snd out)) [] = status_request PyNone
  /\ In (INFO, "Executing command: true (PID: None)") (logged (snd out)).
Proof. vm_compute. repeat split. auto. Qed.

End Examples.

(** ** More on the connection *)

Module ConnectionExtras.
Import Py Env QGAConnection Spec Rel ConnectionFacts.
Local Open Scope method_scope.

Lemma py_in_raises k v e : py_in k v = Raised e -> is_socket_error e = false.
Proof. destruct v; cbn; intros H; inversion H; reflexivity. Qed.

Lemma py_getitem_raises v k e :
  py_getitem v k = Raised e -> is_socket_error e = false.
Proof.
  destruct v; cbn; try (intros H; inversion H; reflexivity).
  destruct (dict_get k d); intros H; inversion H; reflexivity.
Qed.

Lemma py_get_raises v k d e :
  py_get v k d = Raised e -> is_socket_error e = false.
Proof.
  destruct v; cbn; try (intros H; inversion H; reflexivity).
  destruct (dict_get k d0); intros H; inversion H.
Qed.

Section WithRuntime.
Context {rt : Runtime}.

Lemma transmit_raises_no_socket_error command arguments self w :
  raises_socket_error (fst (fst (transmit command arguments self w))) = false.
Proof.
  unfold transmit, bind at 1, get_self.
  destruct (_sock self) as [s|]; [|reflexivity].
  unfold bind, try_except at 1.
  destruct (sock_sendall _ self w) as [[[u|e] s1] w1].
  - unfold try_except.
    destruct (receive_all s1 w1) as [[[data|e] s2] w2]; [reflexivity|].
    destruct e; reflexivity.
  - destruct e; reflexivity.
Qed.

(** X1.  No exception of the socket layer leaves [send_command]: a socket
    timeout or failure during the send or the receive is always turned into
    a [QGAConnectionError]. *)
Theorem send_command_raises_no_socket_error command arguments self w :
  raises_socket_error (fst (fst (send_command command arguments self w)))
  = false.
Proof.
  pose proof (transmit_raises_no_socket_error command arguments self w) as H.
  unfold send_command, bind, lift, ret, raise.
  destruct (transmit command arguments self w) as [[[data|e] s1] w1];
    [|exact H].
  destruct (json_loads data) as [v| |]; try reflexivity.
  destruct (py_in "error" v) as [[]|e] eqn:Ei; try reflexivity.
  - destruct (py_getitem v "error") as [err|e] eqn:Eg;
      [|exact (py_getitem_raises _ _ _ Eg)].
    destruct (py_get err "desc" (PyStr "Unknown error")) as [m|e] eqn:Ed;
      [reflexivity | exact (py_get_raises _ _ _ _ Ed)].
  - exact (py_in_raises _ _ _ Ei).
Qed.

(** X2.  When the socket refuses the request, [send_command] raises
    [QGAConnectionError] with the text of the failure and stops there: no
    read is attempted, and nothing counts as sent. *)
Theorem send_failure_reads_nothing command arguments self w s msg rest :
  _sock self = Some s ->
  sends w = Some msg :: rest ->
  send_command command arguments self w
  = (Raised (Qga QGAConnectionError ("Failed to send command: " ++ msg)),
     self, set_sends rest w)
  /\ recvs (set_sends rest w) = recvs w
  /\ sent (set_sends rest w) = sent w.
Proof.
  intros Hs Hw. split; [|split; reflexivity].
  unfold send_command, transmit, bind at 1 2, get_self. rewrite Hs.
  unfold bind, try_except, sock_sendall, on_sock, bind, get_self.
  rewrite Hs, Hw. reflexivity.
Qed.

Lemma sock_recv_data n self w s chunk rest :
  _sock self = Some s ->
  recvs w = Data chunk :: rest ->
  sock_recv n self w = (Returned chunk, self, set_recvs rest w).
Proof.
  intros Hs Hw. unfold sock_recv, on_sock, bind, get_self.
  now rewrite Hs, Hw.
Qed.

Lemma receive_arrival (chunks : list (list byte)) :
  forall data fuel self w s rest,
    _sock self = Some s ->
    recvs w = (map Data chunks ++ rest)%list ->
    arrives_in data chunks = true ->
    (List.length chunks <= fuel)%nat ->
    receive fuel data self w
    = (Returned (data ++ List.concat chunks)%list, self, set_recvs rest w)
    /\ exists v, json_loads (data ++ List.concat chunks)%list = Parsed v.
Proof.
  induction chunks as [|chunk chunks IH];
    intros data fuel self w s rest Hs Hw Ha Hf; [discriminate Ha|].
  destruct fuel as [|fuel]; [simpl in Hf; lia|].
  cbn [arrives_in] in Ha. destruct chunk as [|b chunk]; [discriminate Ha|].
  rewrite receive_S.
  rewrite (bind_returned _ _ _ _ _ _ _ (sock_recv_data 4096 _ _ _ _ _ Hs Hw)).
  cbv zeta. cbn [List.concat].
  destruct (json_loads (data ++ b :: chunk)%list) as [v|m|] eqn:Ej.
  - destruct chunks; [|discriminate Ha]. cbn [List.concat map app].
    rewrite app_nil_r. split; [reflexivity | now exists v; rewrite Ej].
  - apply andb_prop in Ha as [Hl Ha]. apply negb_true_iff in Hl. rewrite Hl.
    rewrite app_assoc.
    apply (IH _ fuel self (set_recvs (map Data chunks ++ rest)%list w) s rest);
      auto. simpl in Hf. lia.
  - apply andb_prop in Ha as [Hl Ha]. apply negb_true_iff in Hl. rewrite Hl.
    rewrite app_assoc.
    apply (IH _ fuel self (set_recvs (map Data chunks ++ rest)%list w) s rest);
      auto. simpl in Hf. lia.
Qed.

Lemma sock_sendall_accepted data self w s :
  _sock self = Some s ->
  hd None (sends w) = None ->
  sock_sendall data self w = (Returned tt, self, accepted data w).
Proof.
  intros Hs Hw. unfold sock_sendall, on_sock, bind, get_self, accepted.
  rewrite Hs. destruct (sends w) as [|[m|] r]; [reflexivity | discriminate Hw
                                                | reflexivity].
Qed.

(** What [transmit] does once the socket has taken the request. *)
Lemma transmit_accepted command arguments self w s :
  _sock self = Some s ->
  hd None (sends w) = None ->
  transmit command arguments self w
  = try_except receive_all
      (fun e =>
         match e with
         | SocketTimeout =>
             Some (raise (Qga QGAConnectionError
                            "Timeout waiting for response"))
         | SocketError text =>
             Some (raise (Qga QGAConnectionError
                            ("Failed to receive response: " ++ text)))
         | _ => None
         end) self (accepted (wire_bytes command arguments) w).
Proof.
  intros Hs Hw. unfold transmit, bind at 1, get_self. rewrite Hs.
  unfold bind, try_except at 1.
  now rewrite (sock_sendall_accepted _ _ _ _ Hs Hw).
Qed.

Lemma transmit_arrival command arguments self w s chunks rest :
  _sock self = Some s ->
  hd None (sends w) = None ->
  recvs w = (map Data chunks ++ rest)%list ->
  arrives_in [] chunks = true ->
  transmit command arguments self w
  = (Returned (List.concat chunks), self,
     set_recvs rest (accepted (wire_bytes command arguments) w))
  /\ exists v, json_loads (List.concat chunks) = Parsed v.
Proof.
  intros Hs Hw Hr Ha.
  rewrite (transmit_accepted _ _ _ _ _ Hs Hw).
  unfold try_except, receive_all.
  assert (Hr' : recvs (accepted (wire_bytes command arguments) w)
                = (map Data chunks ++ rest)%list).
  { rewrite <- Hr. unfold accepted. now destruct (sends w). }
  destruct (receive_arrival chunks [] (S (List.length (recvs
              (accepted (wire_bytes command arguments) w)))) self _ s rest
              Hs Hr' Ha) as [E V].
  { rewrite Hr', length_app, length_map. lia. }
  rewrite E. split; [reflexivity | exact V].
Qed.

(** X3.  A reply that arrives in several reads, none of which stops at a
    point that looks like the end of a document, is put together again:
    [send_command] behaves exactly as if the same bytes had come in one
    read, it reads no further than the reply, and the bytes it parses are
    the chunks in order. *)
Theorem chunked_reply_is_reassembled command arguments self w s chunks rest :
  _sock self = Some s ->
  hd None (sends w) = None ->
  arrives_in [] chunks = true ->
  send_command command arguments self
    (set_recvs (map Data chunks ++ rest)%list w)
  = send_command command arguments self
      (set_recvs (Data (List.concat chunks) :: rest) w)
  /\ recvs (snd (send_command command arguments self
                   (set_recvs (map Data chunks ++ rest)%list w))) = rest
  /\ exists v, json_loads (List.concat chunks) = Parsed v.
Proof.
  intros Hs Hw Ha.
  destruct (transmit_arrival command arguments self
              (set_recvs (map Data chunks ++ rest)%list w) s chunks rest
              Hs Hw eq_refl Ha) as [E1 [v V]].
  assert (Hne : List.concat chunks <> []).
  { destruct chunks as [|[|b c] cs]; try discriminate Ha. discriminate. }
  assert (Ha1 : arrives_in [] [List.concat chunks] = true).
  { cbn [arrives_in]. destruct (List.concat chunks); [congruence|].
    cbn [app]. now rewrite V. }
  destruct (transmit_arrival command arguments self
              (set_recvs (Data (List.concat chunks) :: rest) w) s
              [List.concat chunks] rest Hs Hw eq_refl Ha1) as [E2 _].
  cbn [List.concat] in E2. rewrite app_nil_r in E2.
  assert (Hsame :
    set_recvs rest (accepted (wire_bytes command arguments)
                      (set_recvs (map Data chunks ++ rest)%list w))
    = set_recvs rest (accepted (wire_bytes command arguments)
                        (set_recvs (Data (List.concat chunks) :: rest) w))).
  { unfold accepted. cbn. now destruct (sends w). }
  split; [|split; [|now exists v]].
  - unfold send_command.
    rewrite (bind_returned _ _ _ _ _ _ _ E1), (bind_returned _ _ _ _ _ _ _ E2).
    now rewrite Hsame.
  - destruct (send_command command arguments self
                (set_recvs (map Data chunks ++ rest)%list w))
      as [[r s1] w1] eqn:E.
    apply ConnectionTheorems.send_command_after_transmit in E as [r0 E].
    rewrite E1 in E. inversion E; subst. reflexivity.
Qed.

(** X4.  The edge of the framing heuristic: when the bytes read so far do
    not parse but end in a closing brace or hold a line feed, and the short
    extra read then times out, the reply is taken as complete, so
    [send_command] raises [QGAProtocolError] with the text of the parse
    failure; what the agent sends afterwards is left unread on the socket,
    and the connection is as it was, deadline included. *)
Theorem truncated_reply_is_rejected command arguments self w chunk msg rest :
  deadline_set self ->
  hd None (sends w) = None ->
  recvs w = Data chunk :: TimedOut :: rest ->
  chunk <> [] ->
  json_loads chunk = NotJSON msg ->
  looks_ended chunk = true ->
  send_command command arguments self w
  = (Raised (Qga QGAProtocolError ("Invalid JSON response: " ++ msg)), self,
     set_recvs rest (accepted (wire_bytes command arguments) w)).
Proof.
  intros [Hs Hq] Hw Hr Hne Hj Hl.
  assert (Hr' : recvs (accepted (wire_bytes command arguments) w)
                = Data chunk :: TimedOut :: rest).
  { rewrite <- Hr. unfold accepted. now destruct (sends w). }
  assert (Ht : transmit command arguments self w
               = (Returned chunk, self,
                  set_recvs rest (accepted (wire_bytes command arguments) w))).
  { rewrite (transmit_accepted _ _ _ _ _ Hs Hw).
    unfold try_except, receive_all. rewrite Hr'. cbn [List.length].
    rewrite receive_S.
    rewrite (bind_returned _ _ _ _ _ _ _
               (sock_recv_data 4096 _ _ _ _ _ Hs Hr')).
    destruct chunk as [|b chunk]; [congruence|].
    cbv zeta. cbn [app]. rewrite Hj, Hl.
    unfold secondary_read, sock_settimeout, sock_recv, on_sock, try_finally,
      try_except, bind, get_self, set_sock, ret, raise.
    rewrite Hs. cbn. rewrite Hq. cbn.
    destruct self as [p t0 so]. cbn in *. now rewrite Hs. }
  unfold send_command. rewrite (bind_returned _ _ _ _ _ _ _ Ht), Hj.
  reflexivity.
Qed.

End WithRuntime.

(** X5.  A [connect] that the peer refuses raises [QGAConnectionError]
    naming the path and the failure, logs nothing, and leaves the fresh
    socket in place with the configured deadline: the connection does not
    go back to having no socket. *)
Theorem failed_connect_keeps_the_socket self w msg rest :
  Qle_bool 0 (timeout self) = true ->
  connects w = Some msg :: rest ->
  connect self w
  = (Raised (Qga QGAConnectionError
               ("Failed to connect to " ++ socket_path self ++ ": " ++ msg)),
     {| socket_path := socket_path self; timeout := timeout self;
        _sock := Some {| sock_timeout := Some (timeout self) |} |},
     set_connects rest w)
  /\ logged (set_connects rest w) = logged w.
Proof.
  intros Hq Hw. split; [|reflexivity].
  unfold connect, try_except, bind, set_sock, get_self, sock_settimeout,
    sock_connect, on_sock, logger, raise, ret, bind, get_self. cbn.
  rewrite Hq. cbn. rewrite Hw. reflexivity.
Qed.

(** X6.  After [disconnect], whatever the connection was, [send_command]
    is refused with [QGAConnectionError] before anything reaches the
    world. *)
Theorem send_after_disconnect_is_refused
    {rt : Runtime} command arguments self w :
  let '(_, self1, w1) := disconnect self w in
  send_command command arguments self1 w1
  = (Raised (Qga QGAConnectionError "Not connected to QGA socket"), self1, w1).
Proof.
  unfold disconnect, bind at 1, get_self.
  destruct (_sock self) as [s|] eqn:Es.
  - unfold bind, sock_close, on_sock, bind, get_self, set_sock, logger.
    rewrite Es. reflexivity.
  - unfold ret, send_command, transmit, bind, get_self. now rewrite Es.
Qed.

End ConnectionExtras.

(** ** More on the client *)

Module ClientExtras.
Import Py Env QGAClient Spec Rel ClientFacts.
Local Open Scope method_scope.

(** *** Connecting lazily *)

Lemma connect_sets_connection self w :
  _connection (snd (fst (connect self w))) <> None.
Proof.
  unfold connect, bind, get_self, set_connection, on_connection. cbn.
  destruct (QGAConnection.connect _ w) as [[r c] w1]. cbn. discriminate.
Qed.

(** X7.  The client connects when it has no connection object, and only
    then: after any [connect], successful or not, [_ensure_connected] does
    nothing (a failed connection is not tried again), and after a
    [disconnect] it is a full [connect]. *)
Theorem connection_is_made_once self w :
  (let self1 := snd (fst (connect self w)) in
   forall w1, _ensure_connected self1 w1 = (Returned tt, self1, w1))
  /\ (let '(_, self2, w2) := disconnect self w in
      _ensure_connected self2 w2 = connect self2 w2).
Proof.
  split.
  - intros self1 w1. pose proof (connect_sets_connection self w) as H.
    fold self1 in H. unfold _ensure_connected, bind, get_self.
    destruct (_connection self1); [reflexivity | congruence].
  - unfold disconnect, bind at 1, get_self.
    destruct (_connection self) as [c|] eqn:Ec.
    + unfold bind, on_connection, set_connection. rewrite Ec.
      pose proof (ConnectionTheorems.disconnect_twice c w) as H.
      destruct (QGAConnection.disconnect c w) as [[r c1] w1].
      destruct H as [-> _]. reflexivity.
    + unfold ret, _ensure_connected, bind, get_self. now rewrite Ec.
Qed.

(** *** The launch *)

(** X8.  The argument dictionary of a launch: an empty command list is an
    [IndexError]; otherwise [path] is the first word and [capture-output]
    the flag, [arg] is present exactly when there are further words (and
    holds them), [input-data] exactly when the input is a non-empty text
    (and holds its base64), [env] exactly when the list of variables is
    non-empty. *)
Theorem launch_arguments_keys command capture_output input_data env :
  match launch_arguments command capture_output input_data env with
  | Raised e => command = [] /\ e = Builtin IndexError
  | Returned arguments =>
      dict_get "path" arguments = option_map PyStr (hd_error command)
      /\ dict_get "capture-output" arguments = Some (PyBool capture_output)
      /\ dict_get "arg" arguments
         = match tl command with
           | [] => None
           | rest => Some (PyList (map PyStr rest))
           end
      /\ dict_get "input-data" arguments
         = match input_data with
           | Some text =>
               if String.eqb text "" then None
               else Some (PyStr (b64encode (encode_utf8 text)))
           | None => None
           end
      /\ dict_get "env" arguments
         = match env with
           | Some ((_ :: _) as vars) => Some (PyList (map PyStr vars))
           | Some [] | None => None
           end
  end.
Proof.
  destruct command as [|path [|a rest]]; [split; reflexivity| |];
    destruct input_data as [text|]; try destruct (String.eqb text "") eqn:Et;
    destruct env as [[|v vars]|]; cbn; rewrite ?Et; cbn; repeat split.
Qed.

Section WithRuntime.
Context {rt : Runtime}.

(** X9.  With an empty command list [exec_command] makes sure of the
    connection first and then fails with [IndexError]: a connection may have
    been opened, and no request has been sent. *)
Theorem empty_command_connects_and_sends_nothing
    capture_output input_data env self w :
  let '(r0, self0, w0) := _ensure_connected self w in
  exec_command [] capture_output input_data env self w
  = (match r0 with
     | Returned _ => Raised (Builtin IndexError)
     | Raised e => Raised e
     end, self0, w0)
  /\ sent w0 = sent w.
Proof.
  destruct (_ensure_connected self w) as [[r0 self0] w0] eqn:E.
  split; [|exact (ensure_connected_sent _ _ _ _ _ E)].
  unfold exec_command. destruct r0 as [[]|e].
  - now rewrite (bind_returned _ _ _ _ _ _ _ E).
  - now rewrite (bind_raised _ _ _ _ _ _ _ E).
Qed.

(** A launch that returns has put exactly its request on the wire. *)
Lemma exec_command_sent
    command capture_output input_data env self w pid self1 w1 :
  exec_command command capture_output input_data env self w
  = (Returned pid, self1, w1) ->
  exists arguments,
    launch_arguments command capture_output input_data env = Returned arguments
    /\ sent w1
       = (sent w ++ [QGAConnection.wire_bytes "guest-exec" (Some arguments)])%list.
Proof.
  unfold exec_command. intros H. unfold bind at 1 in H.
  destruct (_ensure_connected self w) as [[[[]|e] s0] w0] eqn:E0;
    [|discriminate H].
  apply ensure_connected_sent in E0. rewrite <- E0.
  destruct (launch_arguments command capture_output input_data env)
    as [arguments|e]; [|discriminate H].
  exists arguments. split; [reflexivity|].
  unfold lift at 1, bind at 1, ret in H.
  unfold bind, on_connection, set_connection in H.
  destruct (_connection s0) as [c|]; [|discriminate H].
  destruct (QGAConnection.send_command _ _ c w0) as [[[v|e] c1] w2] eqn:E1;
    [|discriminate H].
  apply ConnectionTheorems.send_command_returned_sent in E1 as [E1 _].
  destruct (py_get v "return" (PyDict [])) as [p|e]; [|discriminate H].
  cbn in H. destruct (py_get p "pid" PyNone); inversion H; subst. exact E1.
Qed.

(** *** The poll loop *)

(** X10.  With a bound of zero or less, [run_command] still launches the
    command, then fails at once with the base-class timeout reporting zero
    polls: the launch request is the only one sent, and nothing is slept. *)
Theorem zero_bound_launches_without_polling
    command capture_output input_data env self w pid self1 w1 :
  max_poll_retries self <= 0 ->
  exec_command command capture_output input_data env self w
  = (Returned pid, self1, w1) ->
  run_command command capture_output input_data env self w
  = (Raised (Qga QGAError
               ("Command execution timeout after "
                  ++ str_float (inject_Z 0 * poll_interval self)%Q
                  ++ " seconds")), self1,
     after_info ("Executing command: " ++ join_words command
                   ++ " (PID: " ++ py_str pid ++ ")") w1)
  /\ (exists arguments,
        launch_arguments command capture_output input_data env
        = Returned arguments
        /\ sent w1
           = (sent w
                ++ [QGAConnection.wire_bytes "guest-exec" (Some arguments)])%list)
  /\ slept w1 = slept w.
Proof.
  intros Hm E.
  pose proof (exec_command_config _ _ _ _ _ _ _ _ _ E) as (Hi & Hr & Hc).
  split; [|split; [exact (exec_command_sent _ _ _ _ _ _ _ _ _ E) | exact Hc]].
  rewrite (run_command_after_launch _ _ _ _ _ _ _ _ _ E), Hr.
  replace (Z.to_nat (max_poll_retries self)) with 0%nat by lia.
  cbn [poll]. unfold bind, get_self, raise. now rewrite Hi.
Qed.

Lemma completed_world status self w r self' w' :
  completed status self w = (r, self', w') ->
  self' = self /\ sent w' = sent w /\ slept w' = slept w
  /\ closed w' = closed w /\ recvs w' = recvs w.
Proof.
  destruct status as [| | | | |d];
    try (intros H; inversion H; subst; repeat split; fail).
  unfold completed, decode_stream, bind, ret, logger, lift.
  destruct (dict_get "out-data" d) as [ob|];
    [destruct (b64decode_utf8 ob) as [ot|oe]|];
    (destruct (dict_get "err-data" d) as [eb|];
     [destruct (b64decode_utf8 eb) as [et|ee]|]);
    cbn; intros H; inversion H; subst; auto.
Qed.

Lemma exits_after_counts (k : nat) :
  forall pid self w status self' w',
    exits_after k pid self w = Some (status, self', w') ->
    sent w' = (sent w ++ repeat (status_request pid) (S k))%list
    /\ slept w' = (slept w ++ repeat (poll_interval self) k)%list
    /\ has_exited status = true.
Proof.
  induction k as [|k IH]; intros pid self w status self' w' He;
    cbn [exits_after] in He;
    destruct (get_exec_status pid self w) as [[[st|e] s1] w1] eqn:E;
    try discriminate He;
    pose proof (get_exec_status_config pid _ _ _ _ _ E) as (Hi & Hm & Hc);
    pose proof (get_exec_status_sent _ _ _ _ _ _ E) as Hsent.
  - destruct (has_exited st) eqn:Hx; [|discriminate He].
    inversion He; subst. cbn. rewrite app_nil_r. auto.
  - destruct (not_exited st && Qle_bool 0 (poll_interval s1));
      [|discriminate He].
    apply IH in He as (Hs & Hl & Hx). split; [|split; [|exact Hx]].
    + rewrite Hs. cbn. rewrite Hsent, <- app_assoc. reflexivity.
    + rewrite Hl. cbn. rewrite Hc, Hi, <- app_assoc. reflexivity.
Qed.

(** X11.  When the command is reported as exited at poll number [k + 1]
    (below the bound), [run_command] returns after exactly [k + 1] status
    requests and [k] pauses of [poll_interval]: it pauses between polls
    only, never before the first and never after the last, and a command
    that has exited at the first poll costs no pause at all. *)
Theorem exit_costs_one_pause_per_earlier_poll
    command capture_output input_data env self w pid self1 w1 k status self2 w2 :
  exec_command command capture_output input_data env self w
  = (Returned pid, self1, w1) ->
  exits_after k pid self1
    (after_info ("Executing command: " ++ join_words command
                   ++ " (PID: " ++ py_str pid ++ ")") w1)
  = Some (status, self2, w2) ->
  (k < Z.to_nat (max_poll_retries self))%nat ->
  let w' := snd (run_command command capture_output input_data env self w) in
  sent w' = (sent w1 ++ repeat (status_request pid) (S k))%list
  /\ slept w' = (slept w ++ repeat (poll_interval self) k)%list.
Proof.
  intros E He Hk.
  pose proof (exec_command_config _ _ _ _ _ _ _ _ _ E) as (Hi & Hm & Hc).
  rewrite (run_command_after_launch _ _ _ _ _ _ _ _ _ E), Hm.
  rewrite (poll_exits _ _ _ _ _ _ _ _ _ He Hk).
  apply exits_after_counts in He as (Hs & Hl & _).
  destruct (completed status self2 w2) as [[r s3] w3] eqn:Ec.
  apply completed_world in Ec as (_ & Es & El & _).
  cbn. rewrite Es, El, Hs, Hl, Hi. cbn. now rewrite Hc.
Qed.

Lemma poll_returns_shape (n : nat) :
  forall retries pid self w v self' w',
    poll n retries pid self w = (Returned v, self', w') ->
    exists code out err,
      v = PyDict [("exitcode", code); ("exited", PyBool true);
                  ("stdout", PyStr out); ("stderr", PyStr err)].
Proof.
  induction n as [|n IH]; intros retries pid self w v self' w' H;
    [discriminate H|].
  rewrite poll_S in H. unfold bind at 1 in H.
  destruct (get_exec_status pid self w) as [[[status|e] s1] w1];
    [|discriminate H].
  unfold lift at 1, bind at 1 in H.
  destruct (py_get status "exited" (PyBool false)) as [x|e];
    [|discriminate H].
  unfold ret in H. destruct (truthy x).
  - destruct status as [| | | | |d]; try discriminate H.
    destruct (completed_returns d s1 w1) as (out & err & w3 & Hr & _).
    rewrite Hr in H. inversion H; subst. eauto.
  - unfold bind at 1, get_self in H. unfold bind at 1, time_sleep in H.
    destruct (Qle_bool 0 (poll_interval s1)); [|discriminate H].
    eapply IH; exact H.
Qed.

(** X12.  Whatever [run_command] returns is a dictionary with exactly the
    four keys [exitcode], [exited], [stdout] and [stderr], in that order,
    where [exited] is true and both streams are text. *)
Theorem run_command_result_shape
    command capture_output input_data env self w v self' w' :
  run_command command capture_output input_data env self w
  = (Returned v, self', w') ->
  exists code out err,
    v = PyDict [("exitcode", code); ("exited", PyBool true);
                ("stdout", PyStr out); ("stderr", PyStr err)].
Proof.
  intros H.
  destruct (exec_command command capture_output input_data env self w)
    as [[[pid|e] s1] w1] eqn:E.
  - rewrite (run_command_after_launch _ _ _ _ _ _ _ _ _ E) in H.
    eapply poll_returns_shape; exact H.
  - unfold run_command in H. rewrite (bind_raised _ _ _ _ _ _ _ E) in H.
    discriminate H.
Qed.

End WithRuntime.

End ClientExtras.

(** ** Guaranteed release, and the one-request methods *)

Module ReleaseFacts.
Import Py Env QGAClient Spec Rel ClientFacts.
Local Open Scope method_scope.

Lemma keeps_open_refl self w : keeps_open self w self w.
Proof. split; auto. Qed.

Lemma keeps_open_trans s1 w1 s2 w2 s3 w3 :
  keeps_open s1 w1 s2 w2 -> keeps_open s2 w2 s3 w3 -> keeps_open s1 w1 s3 w3.
Proof. intros [? ?] [? ?]. split; [congruence | auto]. Qed.

Lemma connection_connect_closed self w :
  closed (snd (QGAConnection.connect self w)) = closed w.
Proof.
  unfold QGAConnection.connect, try_except, bind, QGAConnection.set_sock,
    get_self, QGAConnection.sock_settimeout, QGAConnection.sock_connect,
    QGAConnection.on_sock, logger, raise, ret, bind, get_self. cbn.
  destruct (Qle_bool 0 (QGAConnection.timeout self)); cbn; [|reflexivity].
  destruct (connects w) as [|[msg|] rest]; reflexivity.
Qed.

Lemma on_connection_keeps_open {A} (m : M QGAConnection.t A) :
  respects keeps_socket m -> respects keeps_open (on_connection m).
Proof.
  intros Hm s w r s' w' H. unfold on_connection, set_connection in H.
  destruct (_connection s) as [c|] eqn:Ec;
    [|inversion H; subst; apply keeps_open_refl].
  destruct (m c w) as [[r1 c1] w1] eqn:E. inversion H; subst.
  destruct (Hm _ _ _ _ _ E) as [Hc Ho]. split; [exact Hc|].
  intros (c0 & s0 & Hc0 & Hs0). rewrite Ec in Hc0. inversion Hc0; subst.
  cbn. destruct (QGAConnection._sock c1) as [s1|] eqn:E1.
  - now exists c1, s1.
  - exfalso. apply Ho; [congruence | reflexivity].
Qed.

Lemma ensure_connected_keeps_open : respects keeps_open _ensure_connected.
Proof.
  intros s w r s' w' H. unfold _ensure_connected, bind, get_self in H.
  destruct (_connection s) as [c|] eqn:Ec.
  - inversion H; subst. apply keeps_open_refl.
  - split.
    + unfold connect, bind, get_self, set_connection, on_connection in H.
      cbn in H.
      pose proof (connection_connect_closed
                    (QGAConnection.__init__ (socket_path s) (timeout s)) w) as Hc.
      destruct (QGAConnection.connect _ w) as [[r1 c1] w1].
      inversion H; subst. exact Hc.
    + intros (c0 & s0 & Hc0 & _). congruence.
Qed.

Lemma logger_keeps_open lv msg : respects keeps_open (logger lv msg).
Proof. intros s w r s' w' H. inversion H; subst. split; auto. Qed.

Lemma time_sleep_keeps_open secs : respects keeps_open (time_sleep secs).
Proof.
  intros s w r s' w' H. unfold time_sleep in H.
  destruct (Qle_bool 0 secs); inversion H; subst; split; auto.
Qed.

Section WithRuntime.
Context {rt : Runtime}.

Lemma send_command_keeps_socket command arguments :
  respects keeps_socket (QGAConnection.send_command command arguments).
Proof.
  intros s w r s' w' H. apply ConnectionFacts.send_command_outside in H.
  destruct H as (_ & _ & Hs & _ & Hc & _). split; assumption.
Qed.

(** Every method that is one exchange with the agent, followed by work on
    the reply, keeps the socket. *)
Lemma exchange_keeps_open {A B} command arguments (k : value -> M t B)
    (pre : M t A) :
  respects keeps_open pre ->
  (forall response, respects keeps_open (k response)) ->
  respects keeps_open
    (pre ;;;
     response <-
       on_connection (QGAConnection.send_command command arguments) ;;
     k response).
Proof.
  intros Hp Hk.
  apply respects_bind; [exact keeps_open_trans | exact Hp | intros _].
  apply respects_bind; [exact keeps_open_trans | | exact Hk].
  apply on_connection_keeps_open, send_command_keeps_socket.
Qed.

Lemma get_exec_status_keeps_open pid : respects keeps_open (get_exec_status pid).
Proof.
  apply exchange_keeps_open; [apply ensure_connected_keeps_open|].
  intros response. apply respects_lift, keeps_open_refl.
Qed.

Lemma exec_command_keeps_open command capture_output input_data env :
  respects keeps_open (exec_command command capture_output input_data env).
Proof.
  unfold exec_command.
  apply respects_bind;
    [exact keeps_open_trans | apply ensure_connected_keeps_open | intros _].
  apply respects_bind;
    [exact keeps_open_trans | apply respects_lift, keeps_open_refl|].
  intros arguments.
  apply respects_bind; [exact keeps_open_trans | | intros response].
  - apply on_connection_keeps_open, send_command_keeps_socket.
  - apply respects_bind;
      [exact keeps_open_trans | apply respects_lift, keeps_open_refl|].
    intros payload. apply respects_lift, keeps_open_refl.
Qed.

Lemma completed_keeps_open status : respects keeps_open (completed status).
Proof.
  intros s w r s' w' H.
  apply ClientExtras.completed_world in H as (-> & _ & _ & Hc & _).
  split; auto.
Qed.

Lemma poll_keeps_open (n : nat) :
  forall retries pid, respects keeps_open (poll n retries pid).
Proof.
  induction n as [|n IH]; intros retries pid.
  - cbn [poll].
    apply respects_bind;
      [exact keeps_open_trans | apply respects_get_self, keeps_open_refl|].
    intros self. apply respects_raise, keeps_open_refl.
  - rewrite poll_S.
    apply respects_bind;
      [exact keeps_open_trans | apply get_exec_status_keeps_open|].
    intros status.
    apply respects_bind;
      [exact keeps_open_trans | apply respects_lift, keeps_open_refl|].
    intros exited. destruct (truthy exited);
      [apply completed_keeps_open|].
    apply respects_bind;
      [exact keeps_open_trans | apply respects_get_self, keeps_open_refl|].
    intros self.
    apply respects_bind;
      [exact keeps_open_trans | apply time_sleep_keeps_open | intros _].
    apply IH.
Qed.

Lemma run_command_keeps_open command capture_output input_data env :
  respects keeps_open (run_command command capture_output input_data env).
Proof.
  unfold run_command.
  apply respects_bind;
    [exact keeps_open_trans | apply exec_command_keeps_open | intros pid].
  apply respects_bind;
    [exact keeps_open_trans | apply logger_keeps_open | intros _].
  apply respects_bind;
    [exact keeps_open_trans | apply respects_get_self, keeps_open_refl|].
  intros self. apply poll_keeps_open.
Qed.

End WithRuntime.

Lemma connect_opens self w self1 w1 :
  connect self w = (Returned tt, self1, w1) ->
  socket_open self1 /\ closed w1 = closed w.
Proof.
  unfold connect, bind, get_self, set_connection, on_connection. cbn.
  pose proof (connection_connect_closed
                (QGAConnection.__init__ (socket_path self) (timeout self)) w)
    as Hc.
  destruct (QGAConnection.connect _ w) as [[[[]|e] c1] w2] eqn:E;
    intros H; inversion H; subst.
  split; [|exact Hc].
  apply ConnectionTheorems.connect_sets_deadline in E as [Hs _].
  eexists _, _. split; [reflexivity | exact Hs].
Qed.

Lemma connect_raised_closed self w e self1 w1 :
  connect self w = (Raised e, self1, w1) -> closed w1 = closed w.
Proof.
  unfold connect, bind, get_self, set_connection, on_connection. cbn.
  pose proof (connection_connect_closed
                (QGAConnection.__init__ (socket_path self) (timeout self)) w)
    as Hc.
  destruct (QGAConnection.connect _ w) as [[[[]|e0] c1] w2];
    intros H; inversion H; subst. exact Hc.
Qed.

Lemma disconnect_open self w :
  socket_open self ->
  exists self' w',
    disconnect self w = (Returned tt, self', w')
    /\ _connection self' = None /\ closed w' = S (closed w).
Proof.
  intros (c & s & Hc & Hs).
  unfold disconnect, bind at 1, get_self. rewrite Hc.
  unfold bind, on_connection, set_connection. rewrite Hc.
  unfold QGAConnection.disconnect, bind, get_self. rewrite Hs.
  unfold QGAConnection.sock_close, QGAConnection.on_sock, bind, get_self,
    QGAConnection.set_sock, logger.
  rewrite Hs. cbn. eexists _, _. repeat split.
Qed.

(** X13.  [with client: body] releases the socket on every path.  When the
    [connect] of [__enter__] returns, the body runs, and whether it returns
    or raises, its outcome is the outcome of the statement, the client ends
    without a connection, and exactly one socket has been closed; this
    holds for every body that keeps the socket open and closes none itself
    (as [run_command] does).  When the [connect] raises, the body does not
    run and nothing is closed. *)
Theorem with_client_releases {A} (body : M t A) self w :
  respects keeps_open body ->
  match connect self w with
  | (Returned _, self1, w1) =>
      exists self' w',
        with_client body self w = (fst (fst (body self1 w1)), self', w')
        /\ _connection self' = None
        /\ closed w' = S (closed w)
  | (Raised e, self1, w1) =>
      with_client body self w = (Raised e, self1, w1)
      /\ closed w1 = closed w
  end.
Proof.
  intros Hb.
  unfold with_client, with_statement, __enter__, __exit__.
  destruct (connect self w) as [[[[]|e] self1] w1] eqn:E.
  - rewrite (bind_returned _ _ _ _ _ _ _
               (bind_returned _ _ _ _ _ _ _ E)).
    unfold get_self, try_finally.
    destruct (connect_opens _ _ _ _ E) as [Ho Hc].
    destruct (body self1 w1) as [[r s2] w2] eqn:Eb.
    destruct (Hb _ _ _ _ _ Eb) as [Hc2 Ho2].
    destruct (disconnect_open s2 w2 (Ho2 Ho)) as (s3 & w3 & Ed & Hn & Hc3).
    rewrite Ed. exists s3, w3. cbn. repeat split; [exact Hn | congruence].
  - split; [|exact (connect_raised_closed _ _ _ _ _ E)].
    now rewrite (bind_raised _ _ _ _ _ _ _ (bind_raised _ _ _ _ _ _ _ E)).
Qed.

End ReleaseFacts.

(** ** The one-request methods and the command handlers *)

Module MethodFacts.
Import Py Env QGAClient Spec Rel ClientFacts.
Local Open Scope method_scope.

Lemma append_nil_r_string (a : string) : a ++ "" = a.
Proof. induction a as [|x a IH]; cbn; [reflexivity | now rewrite IH]. Qed.

Lemma append_assoc (a b c : string) : (a ++ b) ++ c = a ++ (b ++ c).
Proof. induction a as [|x a IH]; cbn; [reflexivity | now rewrite IH]. Qed.

(** *** Base64 text needs no escaping *)

Lemma b64_digit_plain (n : N) : escape_char (b64_digit n) = str1 (b64_digit n).
Proof.
  unfold b64_digit. generalize (N.to_nat n). intros m.
  do 64 (destruct m as [|m]; [vm_compute; reflexivity|]).
  reflexivity.
Qed.

Lemma b64_groups_plain (n : nat) :
  forall bs, (List.length bs <= n)%nat ->
             escape_body (b64_groups bs) = b64_groups bs.
Proof.
  induction n as [|n IH]; intros bs Hn.
  - destruct bs; [reflexivity | simpl in Hn; lia].
  - destruct bs as [|a [|b [|c rest]]]; cbn [b64_groups escape_body];
      rewrite ?b64_digit_plain; try reflexivity.
    cbn [append]. rewrite IH; [reflexivity | simpl in Hn; lia].
Qed.

Lemma b64encode_plain (bs : list byte) :
  encode_basestring_ascii (b64encode bs) = quoted (b64encode bs).
Proof.
  unfold encode_basestring_ascii, quoted, b64encode.
  now rewrite (b64_groups_plain _ _ (le_n _)).
Qed.

(** *** SSH keys *)

Lemma comprehension_entries (entries : list dict) :
  comprehension (fun key => py_get key "key" (PyStr "")) (map PyDict entries)
  = Returned (map (fun d => match dict_get "key" d with
                            | Some k => k
                            | None => PyStr ""
                            end) entries).
Proof.
  induction entries as [|d entries IH]; [reflexivity|].
  cbn [map comprehension py_get]. rewrite IH.
  now destruct (dict_get "key" d).
Qed.

Section WithRuntime.
Context {rt : Runtime}.

(** X14.  What [ssh_get_authorized_keys] makes of a reply whose [keys] is
    a list of dictionaries: the [key] entry of each, in order, and the empty
    text for a dictionary without one.  In particular it reads back exactly
    the keys that [ssh_add_authorized_keys] wraps: [keys_list] followed by
    this extraction is the identity. *)
Theorem ssh_keys_round_trip
    username self w self0 w0 response self1 w1 payload entries :
  _ensure_connected self w = (Returned tt, self0, w0) ->
  on_connection
    (QGAConnection.send_command "guest-ssh-get-authorized-keys"
       (Some [("username", PyStr username)])) self0 w0
  = (Returned response, self1, w1) ->
  py_get response "return" (PyDict []) = Returned (PyDict payload) ->
  dict_get "keys" payload = Some (PyList (map PyDict entries)) ->
  ssh_get_authorized_keys username self w
  = (Returned (map (fun d => match dict_get "key" d with
                             | Some k => k
                             | None => PyStr ""
                             end) entries), self1, w1)
  /\ forall keys,
       keys_list keys
       = PyList (map PyDict (map (fun key => [("key", PyStr key)]) keys))
       /\ map (fun d => match dict_get "key" d with
                        | Some k => k
                        | None => PyStr ""
                        end) (map (fun key => [("key", PyStr key)]) keys)
          = map PyStr keys.
Proof.
  intros E0 E1 Hp Hk. split.
  - unfold ssh_get_authorized_keys.
    rewrite (bind_returned _ _ _ _ _ _ _ E0).
    rewrite (bind_returned _ _ _ _ _ _ _ E1). rewrite Hp.
    unfold lift at 1, bind at 1, ret. cbn [py_get]. rewrite Hk.
    unfold lift at 1, bind at 1, ret. cbn [py_iter].
    unfold lift at 1, bind at 1, ret.
    now rewrite comprehension_entries.
  - intros keys. split.
    + unfold keys_list. now rewrite map_map.
    + rewrite map_map. apply map_ext. reflexivity.
Qed.

(** *** Passwords and file contents *)

Lemma exchange_sent {B} command arguments (k : value -> M t B)
    self w r self' w' :
  (_ensure_connected ;;;
   response <- on_connection (QGAConnection.send_command command arguments) ;;
   k response) self w = (Returned r, self', w') ->
  exists self0 w0 response self1 w1,
    _ensure_connected self w = (Returned tt, self0, w0)
    /\ on_connection (QGAConnection.send_command command arguments) self0 w0
       = (Returned response, self1, w1)
    /\ k response self1 w1 = (Returned r, self', w')
    /\ sent w1 = (sent w ++ [QGAConnection.wire_bytes command arguments])%list
    /\ logged w1 = logged w0.
Proof.
  intros H. unfold bind at 1 in H.
  destruct (_ensure_connected self w) as [[[[]|e] s0] w0] eqn:E0;
    [|discriminate H].
  unfold bind at 1 in H.
  destruct (on_connection _ s0 w0) as [[[response|e] s1] w1] eqn:E1;
    [|discriminate H].
  exists s0, w0, response, s1, w1. repeat split; auto.
  - apply ensure_connected_sent in E0. rewrite <- E0.
    unfold on_connection, set_connection in E1.
    destruct (_connection s0) as [c|]; [|discriminate E1].
    destruct (QGAConnection.send_command _ _ c w0) as [[r1 c1] w2] eqn:E2.
    inversion E1; subst.
    now apply ConnectionTheorems.send_command_returned_sent in E2 as [E2 _].
  - unfold on_connection, set_connection in E1.
    destruct (_connection s0) as [c|]; [|discriminate E1].
    destruct (QGAConnection.send_command _ _ c w0) as [[r1 c1] w2] eqn:E2.
    inversion E1; subst.
    apply ConnectionFacts.send_command_outside in E2. apply E2.
Qed.


(** X16.  A [file_write] that returns has sent one request, and the bytes
    of that request carry the content as base64 text between plain quotes,
    with no escape in it, whatever the content holds. *)
Theorem file_write_sends_base64 handle content self w v self' w' :
  file_write handle content self w = (Returned v, self', w') ->
  sent w'
  = (sent w
       ++ [encode_utf8
             ("{" ++ quoted "execute" ++ ": " ++ quoted "guest-file-write"
                  ++ ", " ++ quoted "arguments" ++ ": {"
                  ++ quoted "handle" ++ ": " ++ dumps handle ++ ", "
                  ++ quoted "buf-b64" ++ ": "
                  ++ quoted (b64encode (encode_utf8 content))
                  ++ "}}" ++ str1 newline)])%list.
Proof.
  intros H. unfold file_write in H. cbv zeta in H.
  apply exchange_sent in H
    as (s0 & w0 & response & s1 & w1 & _ & _ & Hk & Hs & _).
  unfold bind, lift in Hk.
  destruct (py_get response "return" (PyDict [])) as [p|e];
    [|discriminate Hk].
  cbn in Hk. destruct (py_get p "count" (PyInt 0)); inversion Hk; subst.
  rewrite Hs. do 2 f_equal.
  unfold QGAConnection.wire_bytes. f_equal.
  cbn [QGAConnection.build_request truthy dict_set String.eqb Ascii.eqb
       Bool.eqb dumps map String.concat].
  rewrite b64encode_plain. unfold quoted.
  generalize (dumps handle) (b64encode (encode_utf8 content)).
  intros h c. cbn. rewrite !append_assoc. cbn. rewrite ?append_assoc.
  reflexivity.
Qed.

End WithRuntime.
End MethodFacts.

Module CLIFacts.
Import Py Env CLI Spec Rel.
Local Open Scope method_scope.

Section WithRuntime.
Context {rt : Runtime}.

Lemma run_command_returned_shape
    command capture_output input_data env self w v self' w' :
  QGAClient.run_command command capture_output input_data env self w
  = (Returned v, self', w') ->
  exists code out err,
    v = PyDict [("exitcode", code); ("exited", PyBool true);
                ("stdout", PyStr out); ("stderr", PyStr err)].
Proof.
  intros H.
  destruct (QGAClient.exec_command command capture_output input_data env self w)
    as [[[pid|e] s1] w1] eqn:E.
  - rewrite (ClientFacts.run_command_after_launch _ _ _ _ _ _ _ _ _ E) in H.
    eapply ClientExtras.poll_returns_shape; exact H.
  - unfold QGAClient.run_command in H.
    rewrite (bind_raised _ _ _ _ _ _ _ E) in H. discriminate H.
Qed.

(** X17.  The exit code of [cmd_exec].  Without a command it is 1, with an
    error line and no traffic.  Otherwise it follows [run_command]: a result
    gives the [exitcode] entry of that result (the exit code of the remote
    command, or -1), a failure of one of the module's own classes (the
    timeout of the poll loop included) gives 1 and an error line holding
    its message, and any other exception is not caught. *)
Theorem cmd_exec_exit_code args client con w :
  match cmd args with
  | [] =>
      cmd_exec args (client, con) w
      = (Returned (PyInt 1),
         (client,
          {| stdout := stdout con;
             stderr := (stderr con
                          ++ [("Error: No command specified" ++ line_end)%string])%list |}),
         w)
  | _ :: _ =>
      match QGAClient.run_command (cmd args) true None None client w with
      | (Returned result, client', w') =>
          exists code con',
            cmd_exec args (client, con) w = (Returned code, (client', con'), w')
            /\ py_getitem result "exitcode" = Returned code
            /\ stderr con'
               = (stderr con
                    ++ match py_getitem result "stderr" with
                       | Returned (PyStr (String c text)) =>
                           if json args then [] else [String c text]
                       | _ => []
                       end)%list
      | (Raised (Qga cls msg), client', w') =>
          cmd_exec args (client, con) w
          = (Returned (PyInt 1),
             (client',
              {| stdout := stdout con;
                 stderr := (stderr con
                              ++ [("Error executing command: " ++ msg
                                     ++ line_end)%string])%list |}),
             w')
      | (Raised e, client', w') =>
          cmd_exec args (client, con) w = (Raised e, (client', con), w')
      end
  end.
Proof.
  unfold cmd_exec. destruct (cmd args) as [|word words] eqn:Ecmd;
    [reflexivity|].
  unfold try_except, bind at 1, on_client at 1. cbn [fst snd].
  destruct (QGAClient.run_command (word :: words) true None None client w)
    as [[[result|e] client'] w'] eqn:E.
  - apply run_command_returned_shape in E
      as (code & out & err & ->).
    destruct con as [o e].
    destruct (json args), out as [|oc out], err as [|ec err],
      (show_exitcode args);
      cbn; eexists _, _; rewrite ?MethodFacts.append_nil_r_string;
      (split; [|split]); cbn; rewrite ?app_nil_r; reflexivity.
  - unfold bind, on_client. cbn [fst snd]. rewrite ?E.
    destruct e as [cls msg| | |b]; destruct con; reflexivity.
Qed.

(** X18.  [cmd_file_read] closes the handle only when the read succeeds.
    On success the file is opened, read and closed in that order and the
    content is printed as it is.  When the read fails the handler stops
    where the read stopped: no close request follows, so the handle stays
    open in the guest; a failure of the module's own classes gives exit
    code 1 and an error line, any other exception is not caught. *)
Theorem cmd_file_read_closes_only_after_a_read
    path client con w handle c1 w1 :
  QGAClient.file_open path "r" client w = (Returned handle, c1, w1) ->
  match QGAClient.file_read handle 4096 c1 w1 with
  | (Returned content, c2, w2) =>
      match QGAClient.file_close handle c2 w2 with
      | (Returned _, c3, w3) =>
          cmd_file_read path (client, con) w
          = (Returned (PyInt 0),
             (c3, {| stdout := (stdout con ++ [content])%list;
                     stderr := stderr con |}), w3)
      | (Raised (Qga cls msg), c3, w3) =>
          cmd_file_read path (client, con) w
          = (Returned (PyInt 1),
             (c3, {| stdout := stdout con;
                     stderr := (stderr con
                                  ++ [("Error reading file: " ++ msg
                                         ++ line_end)%string])%list |}), w3)
      | (Raised e, c3, w3) =>
          cmd_file_read path (client, con) w = (Raised e, (c3, con), w3)
      end
  | (Raised (Qga cls msg), c2, w2) =>
      cmd_file_read path (client, con) w
      = (Returned (PyInt 1),
         (c2, {| stdout := stdout con;
                 stderr := (stderr con
                              ++ [("Error reading file: " ++ msg
                                     ++ line_end)%string])%list |}), w2)
  | (Raised e, c2, w2) =>
      cmd_file_read path (client, con) w = (Raised e, (c2, con), w2)
  end.
Proof.
  intros Eo. unfold cmd_file_read, try_except, bind, on_client.
  cbn [fst snd]. rewrite Eo. cbn [fst snd].
  destruct (QGAClient.file_read handle 4096 c1 w1) as [[[content|e] c2] w2].
  - cbn [fst snd].
    destruct (QGAClient.file_close handle c2 w2) as [[[[]|e] c3] w3].
    + destruct con. cbn. now rewrite MethodFacts.append_nil_r_string.
    + destruct e, con; reflexivity.
  - destruct e, con; reflexivity.
Qed.

End WithRuntime.
End CLIFacts.

(** ** Replies that never come *)

Module EdgeFacts.
Import Py Env Spec Rel.
Local Open Scope method_scope.

Section WithRuntime.
Context {rt : Runtime}.

Lemma recvs_accepted data w : recvs (accepted data w) = recvs w.
Proof. unfold accepted. now destruct (sends w). Qed.

Lemma logged_accepted data w : logged (accepted data w) = logged w.
Proof. unfold accepted. now destruct (sends w). Qed.

(** X19.  A peer that closes the connection instead of answering: the
    first read returns no bytes, the loop stops with nothing accumulated,
    and the empty reply fails to parse, so [send_command] raises
    [QGAProtocolError] (not [QGAConnectionError]) with the text of the
    parse failure, after the request has been sent. *)
Theorem closed_peer_is_a_protocol_error
    command arguments self w s msg rest :
  QGAConnection._sock self = Some s ->
  hd None (sends w) = None ->
  recvs w = Data [] :: rest ->
  json_loads [] = NotJSON msg ->
  QGAConnection.send_command command arguments self w
  = (Raised (Qga QGAProtocolError ("Invalid JSON response: " ++ msg)), self,
     set_recvs rest
       (accepted (QGAConnection.wire_bytes command arguments) w)).
Proof.
  intros Hs Hw Hr Hj. unfold QGAConnection.send_command.
  assert (Ht : QGAConnection.transmit command arguments self w
               = (Returned [], self,
                  set_recvs rest
                    (accepted (QGAConnection.wire_bytes command arguments) w))).
  { rewrite (ConnectionExtras.transmit_accepted _ _ _ _ _ Hs Hw).
    unfold try_except, QGAConnection.receive_all.
    assert (Hr' : recvs (accepted (QGAConnection.wire_bytes command arguments) w)
                  = Data [] :: rest) by now rewrite recvs_accepted.
    rewrite Hr'. cbn [List.length]. rewrite ConnectionFacts.receive_S.
    now rewrite (bind_returned _ _ _ _ _ _ _
                   (ConnectionExtras.sock_recv_data 4096 _ _ _ _ _ Hs Hr')). }
  rewrite (bind_returned _ _ _ _ _ _ _ Ht). rewrite Hj. reflexivity.
Qed.

Lemma silent_agent_times_out command arguments self w s rest :
  QGAConnection._sock self = Some s ->
  hd None (sends w) = None ->
  recvs w = TimedOut :: rest ->
  QGAConnection.send_command command arguments self w
  = (Raised (Qga QGAConnectionError "Timeout waiting for response"), self,
     set_recvs rest
       (accepted (QGAConnection.wire_bytes command arguments) w)).
Proof.
  intros Hs Hw Hr. unfold QGAConnection.send_command.
  apply bind_raised.
  rewrite (ConnectionExtras.transmit_accepted _ _ _ _ _ Hs Hw).
  unfold try_except, QGAConnection.receive_all.
  assert (Hr' : recvs (accepted (QGAConnection.wire_bytes command arguments) w)
                = TimedOut :: rest) by now rewrite recvs_accepted.
  rewrite Hr'. cbn [List.length]. rewrite ConnectionFacts.receive_S.
  unfold bind at 1, QGAConnection.sock_recv, QGAConnection.on_sock, bind,
    get_self.
  now rewrite Hs, Hr'.
Qed.

(** X20.  [shutdown] waits for a reply like every other method.  When the
    guest goes down without answering and the read times out, the request
    has been sent, the method raises [QGAConnectionError] and the line
    [Initiated guest ...] is never logged; the client keeps its
    connection. *)
Theorem shutdown_without_reply_raises mode self w c s rest :
  QGAClient._connection self = Some c ->
  QGAConnection._sock c = Some s ->
  hd None (sends w) = None ->
  recvs w = TimedOut :: rest ->
  let w' :=
    set_recvs rest
      (accepted (QGAConnection.wire_bytes "guest-shutdown"
                   (Some [("mode", PyStr mode)])) w) in
  QGAClient.shutdown mode self w
  = (Raised (Qga QGAConnectionError "Timeout waiting for response"),
     self, w')
  /\ sent w'
     = (sent w
          ++ [QGAConnection.wire_bytes "guest-shutdown"
                (Some [("mode", PyStr mode)])])%list
  /\ logged w' = logged w.
Proof.
  intros Hc Hs Hw Hr w'. split; [|split].
  - assert (E0 : QGAClient._ensure_connected self w = (Returned tt, self, w)).
    { unfold QGAClient._ensure_connected, bind, get_self. now rewrite Hc. }
    unfold QGAClient.shutdown. rewrite (bind_returned _ _ _ _ _ _ _ E0).
    apply bind_raised.
    unfold QGAClient.on_connection.
    rewrite Hc, (silent_agent_times_out _ _ _ _ _ _ Hs Hw Hr).
    unfold QGAClient.set_connection. destruct self; cbn in *. now subst.
  - unfold w', accepted. now destruct (sends w).
  - unfold w', accepted. now destruct (sends w).
Qed.

(** X21.  Unlike the output of [run_command], file content that does not
    decode is not replaced by a placeholder: when the reply holds a
    [buf-b64] text that is not the base64 of UTF-8 text, [file_read] lets a
    built-in exception out, none of the module's own classes, so that a
    handler for [QGAError] does not see it. *)
Theorem undecodable_file_content_is_raised
    handle count self w self0 w0 response self1 w1 data blob msg :
  QGAClient._ensure_connected self w = (Returned tt, self0, w0) ->
  QGAClient.on_connection
    (QGAConnection.send_command "guest-file-read"
       (Some [("handle", handle); ("count", PyInt count)])) self0 w0
  = (Returned response, self1, w1) ->
  py_get response "return" (PyDict []) = Returned (PyDict data) ->
  dict_get "buf-b64" data = Some (PyStr blob) ->
  b64decode_utf8 (PyStr blob) = inr msg ->
  exists cls,
    QGAClient.file_read handle count self w = (Raised (Builtin cls), self1, w1).
Proof.
  intros E0 E1 Hp Hd Hb. exists ValueError.
  unfold QGAClient.file_read.
  rewrite (bind_returned _ _ _ _ _ _ _ E0).
  rewrite (bind_returned _ _ _ _ _ _ _ E1).
  rewrite Hp. unfold lift at 1, bind at 1, ret.
  unfold py_in, lift at 1, bind at 1, ret.
  cbn. unfold dict_mem. rewrite Hd.
  unfold bind, ret, lift, QGAClient.b64decode_text. cbn. now rewrite Hb.
Qed.

Lemma comprehension_stops (entries : list dict) item more :
  (forall d, item <> PyDict d) ->
  comprehension (fun key => py_get key "key" (PyStr ""))
    (map PyDict entries ++ item :: more)%list
  = Raised (Builtin AttributeError).
Proof.
  intros Hi. induction entries as [|d entries IH].
  - cbn. destruct item; try reflexivity. now destruct (Hi d).
  - cbn [map app comprehension py_get]. rewrite IH.
    now destruct (dict_get "key" d).
Qed.

(** X22.  [ssh_get_authorized_keys] expects every item of [keys] to be a
    dictionary.  When an item is anything else, a plain text for one, as in
    the list the method itself returns, the call of [get] on it fails:
    the method raises [AttributeError], a built-in exception, after the
    request has been answered, and returns none of the keys before it. *)
Theorem keys_that_are_not_dictionaries_raise
    username self w self0 w0 response self1 w1 payload entries item more :
  QGAClient._ensure_connected self w = (Returned tt, self0, w0) ->
  QGAClient.on_connection
    (QGAConnection.send_command "guest-ssh-get-authorized-keys"
       (Some [("username", PyStr username)])) self0 w0
  = (Returned response, self1, w1) ->
  py_get response "return" (PyDict []) = Returned (PyDict payload) ->
  dict_get "keys" payload
  = Some (PyList (map PyDict entries ++ item :: more)%list) ->
  (forall d, item <> PyDict d) ->
  QGAClient.ssh_get_authorized_keys username self w
  = (Raised (Builtin AttributeError), self1, w1).
Proof.
  intros E0 E1 Hp Hk Hi. unfold QGAClient.ssh_get_authorized_keys.
  rewrite (bind_returned _ _ _ _ _ _ _ E0).
  rewrite (bind_returned _ _ _ _ _ _ _ E1). rewrite Hp.
  unfold lift at 1, bind at 1, ret. cbn [py_get]. rewrite Hk.
  unfold lift at 1, bind at 1, ret. cbn [py_iter].
  unfold lift at 1, bind at 1, ret.
  now rewrite (comprehension_stops _ _ _ Hi).
Qed.

End WithRuntime.
End EdgeFacts.

(** ** Worked examples for the further properties *)

Module ExtraExamples.
Import Py Env Spec.

Definition socket30 : QGAConnection.socket :=
  {| QGAConnection.sock_timeout := Some 30%Q |}.

(** *** X2 *)

Lemma send_failure_reads_nothing_witness :
  let w := set_sends [Some "Broken pipe"] (Sample.script [Sample.pong]) in
  QGAConnection.send_command (rt := Sample.runtime) "guest-ping" None
    Sample.connected w
  = (Raised (Qga QGAConnectionError "Failed to send command: Broken pipe"),
     Sample.connected, set_sends [] w)
  /\ recvs (set_sends [] w) = recvs w
  /\ sent (set_sends [] w) = sent w.
Proof.
  intros w.
  apply (ConnectionExtras.send_failure_reads_nothing (rt := Sample.runtime)
           "guest-ping" None Sample.connected w socket30 "Broken pipe" []);
    reflexivity.
Defined.

(** *** X3 *)

Lemma chunked_reply_is_reassembled_witness :
  let chunks := [firstn 5 (Sample.reply Sample.pong);
                 skipn 5 (Sample.reply Sample.pong)] in
  let w := Sample.agent [] in
  QGAConnection.send_command (rt := Sample.runtime) "guest-ping" None
    Sample.connected (set_recvs (map Data chunks ++ [])%list w)
  = QGAConnection.send_command (rt := Sample.runtime) "guest-ping" None
      Sample.connected (set_recvs [Data (List.concat chunks)] w)
  /\ recvs (snd (QGAConnection.send_command (rt := Sample.runtime)
                   "guest-ping" None Sample.connected
                   (set_recvs (map Data chunks ++ [])%list w))) = []
  /\ exists v, @json_loads Sample.runtime (List.concat chunks) = Parsed v.
Proof.
  intros chunks w.
  apply (ConnectionExtras.chunked_reply_is_reassembled (rt := Sample.runtime)
           "guest-ping" None Sample.connected w socket30 chunks []);
    vm_compute; reflexivity.
Defined.

(** *** X4 *)

Lemma truncated_reply_is_rejected_witness :
  let chunk := firstn 13 (Sample.reply Sample.pong) in
  let rest := [Data (skipn 13 (Sample.reply Sample.pong))] in
  let w := Sample.agent (Data chunk :: TimedOut :: rest) in
  QGAConnection.send_command (rt := Sample.runtime) "guest-ping" None
    Sample.connected w
  = (Raised (Qga QGAProtocolError "Invalid JSON response: Expecting value"),
     Sample.connected,
     set_recvs rest (accepted (QGAConnection.wire_bytes "guest-ping" None) w)).
Proof.
  intros chunk rest w.
  apply (ConnectionExtras.truncated_reply_is_rejected (rt := Sample.runtime)
           "guest-ping" None Sample.connected w chunk "Expecting value" rest).
  - split; reflexivity.
  - reflexivity.
  - reflexivity.
  - vm_compute. discriminate.
  - vm_compute. reflexivity.
  - vm_compute. reflexivity.
Defined.

(** *** X5 *)

Lemma failed_connect_keeps_the_socket_witness :
  let self := QGAConnection.__init__ "/tmp/qga.sock" 30 in
  let w := set_connects [Some "Connection refused"] (Sample.agent []) in
  QGAConnection.connect self w
  = (Raised (Qga QGAConnectionError
               "Failed to connect to /tmp/qga.sock: Connection refused"),
     Sample.connected, set_connects [] w)
  /\ logged (set_connects [] w) = logged w.
Proof.
  intros self w.
  apply (ConnectionExtras.failed_connect_keeps_the_socket self w
           "Connection refused" []); reflexivity.
Defined.

(** *** X10 *)

Lemma zero_bound_launches_without_polling_witness :
  let command := ["echo"; "hi"] in
  let self := Sample.client (1 # 10) 0 in
  let w := Sample.script [Sample.launched] in
  let launch :=
    QGAClient.exec_command (rt := Sample.runtime) command true None None
      self w in
  QGAClient.run_command (rt := Sample.runtime) command true None None self w
  = (Raised (Qga QGAError
               ("Command execution timeout after "
                  ++ @str_float Sample.runtime
                       (inject_Z 0 * QGAClient.poll_interval self)%Q
                  ++ " seconds")), snd (fst launch),
     after_info ("Executing command: " ++ join_words command
                   ++ " (PID: " ++ @py_str Sample.runtime (PyInt 7) ++ ")") (snd launch))
  /\ (exists arguments,
        QGAClient.launch_arguments command true None None = Returned arguments
        /\ sent (snd launch)
           = (sent w
                ++ [QGAConnection.wire_bytes "guest-exec" (Some arguments)])%list)
  /\ slept (snd launch) = slept w.
Proof.
  intros command self w launch.
  apply (ClientExtras.zero_bound_launches_without_polling
           (rt := Sample.runtime) command true None None self w (PyInt 7)
           (snd (fst launch)) (snd launch)).
  - vm_compute. discriminate.
  - vm_compute. reflexivity.
Defined.

(** *** X11 *)

Lemma exit_costs_one_pause_per_earlier_poll_witness :
  let command := ["echo"; "hi"] in
  let self := Sample.client (1 # 10) 5 in
  let w := Sample.script [Sample.launched; Sample.running; Sample.finished] in
  let launch :=
    QGAClient.exec_command (rt := Sample.runtime) command true None None
      self w in
  let w' :=
    snd (QGAClient.run_command (rt := Sample.runtime) command true None None
           self w) in
  sent w' = (sent (snd launch) ++ repeat (status_request (PyInt 7)) 2)%list
  /\ slept w' = (slept w ++ repeat (1 # 10)%Q 1)%list.
Proof.
  intros command self w launch.
  eapply (ClientExtras.exit_costs_one_pause_per_earlier_poll
            (rt := Sample.runtime) command true None None self w (PyInt 7)
            (snd (fst launch)) (snd launch) 1%nat _ _ _).
  - vm_compute. reflexivity.
  - vm_compute. reflexivity.
  - vm_compute. lia.
Defined.

(** *** X12 *)

Lemma run_command_result_shape_witness :
  exists code out err,
    PyDict [("exitcode", PyInt 0); ("exited", PyBool true);
            ("stdout", PyStr ("hi" ++ str1 newline)); ("stderr", PyStr "")]
    = PyDict [("exitcode", code); ("exited", PyBool true);
              ("stdout", PyStr out); ("stderr", PyStr err)].
Proof.
  eapply (ClientExtras.run_command_result_shape (rt := Sample.runtime)
            ["echo"; "hi"] true None None QGAClient.default
            (Sample.script [Sample.launched; Sample.running; Sample.finished])
            _ _ _).
  vm_compute. reflexivity.
Defined.

(** *** X13 *)

Lemma with_client_releases_witness :
  let body :=
    QGAClient.run_command (rt := Sample.runtime) ["echo"; "hi"] true None
      None in
  let self := Sample.client (1 # 10) 5 in
  let w := Sample.script [Sample.launched; Sample.running; Sample.finished] in
  respects keeps_open body
  /\ match QGAClient.connect self w with
     | (Returned _, self1, w1) =>
         exists self' w',
           QGAClient.with_client body self w
           = (fst (fst (body self1 w1)), self', w')
           /\ QGAClient._connection self' = None
           /\ closed w' = S (closed w)
     | (Raised e, self1, w1) =>
         QGAClient.with_client body self w = (Raised e, self1, w1)
         /\ closed w1 = closed w
     end.
Proof.
  intros body self w.
  split; [apply ReleaseFacts.run_command_keeps_open|].
  apply (ReleaseFacts.with_client_releases body self w).
  apply ReleaseFacts.run_command_keeps_open.
Defined.

(** *** X14 *)

Lemma ssh_keys_round_trip_witness :
  let run :=
    QGAClient.ssh_get_authorized_keys (rt := Guest.runtime) "alice"
      QGAClient.default (Sample.script [Guest.keys]) in
  run = (Returned [PyStr "ssh-ed25519 AAAA alice"; PyStr ""],
         snd (fst run), snd run)
  /\ forall keys,
       QGAClient.keys_list keys
       = PyList (map PyDict (map (fun key => [("key", PyStr key)]) keys))
       /\ map (fun d => match dict_get "key" d with
                        | Some k => k
                        | None => PyStr ""
                        end) (map (fun key => [("key", PyStr key)]) keys)
          = map PyStr keys.
Proof.
  intros run.
  eapply (MethodFacts.ssh_keys_round_trip (rt := Guest.runtime) "alice"
            QGAClient.default (Sample.script [Guest.keys]) _ _ Guest.keys
            (snd (fst run)) (snd run) _
            [[("key", PyStr "ssh-ed25519 AAAA alice")]; []]).
  - vm_compute. reflexivity.
  - vm_compute. reflexivity.
  - vm_compute. reflexivity.
  - vm_compute. reflexivity.
Defined.

(** *** X15 *)


(** *** X16 *)

Lemma file_write_sends_base64_witness :
  let w := Sample.script [Guest.written] in
  let w' :=
    snd (QGAClient.file_write (rt := Guest.runtime) (PyInt 1000)
           ("hi" ++ str1 newline) QGAClient.default w) in
  sent w'
  = (sent w
       ++ [encode_utf8
             ("{" ++ quoted "execute" ++ ": " ++ quoted "guest-file-write"
                  ++ ", " ++ quoted "arguments" ++ ": {"
                  ++ quoted "handle" ++ ": " ++ "1000" ++ ", "
                  ++ quoted "buf-b64" ++ ": " ++ quoted "aGkK"
                  ++ "}}" ++ str1 newline)])%list.
Proof.
  intros w.
  eapply (MethodFacts.file_write_sends_base64 (rt := Guest.runtime)
            (PyInt 1000) ("hi" ++ str1 newline) QGAClient.default w
            (PyInt 3) _ _).
  vm_compute. reflexivity.
Defined.

(** *** X18 *)

(** The read fails on content that does not decode: the exception passes
    the handler, and the file stays open. *)
Lemma cmd_file_read_closes_only_after_a_read_witness :
  let w := Sample.script [Guest.opened; Guest.garbled_content; Sample.pong] in
  let run :=
    CLI.cmd_file_read (rt := Guest.runtime) "/etc/hostname"
      (QGAClient.default, Guest.blank) w in
  run = (Raised (Builtin ValueError), snd (fst run), snd run)
  /\ recvs (snd run) = [Data (Sample.reply Sample.pong)]
  /\ List.length (sent (snd run)) = 2%nat.
Proof.
  intros w run.
  pose proof (CLIFacts.cmd_file_read_closes_only_after_a_read
                (rt := Guest.runtime) "/etc/hostname" QGAClient.default
                Guest.blank w (PyInt 1000) _ _ eq_refl) as H.
  split; [exact H | vm_compute; repeat split].
Defined.

(** *** X19 *)

Lemma closed_peer_is_a_protocol_error_witness :
  let w := Sample.agent [Data []] in
  QGAConnection.send_command (rt := Sample.runtime) "guest-ping" None
    Sample.connected w
  = (Raised (Qga QGAProtocolError "Invalid JSON response: Expecting value"),
     Sample.connected,
     set_recvs [] (accepted (QGAConnection.wire_bytes "guest-ping" None) w)).
Proof.
  intros w.
  apply (EdgeFacts.closed_peer_is_a_protocol_error (rt := Sample.runtime)
           "guest-ping" None Sample.connected w socket30 "Expecting value" []);
    reflexivity.
Defined.

(** *** X20 *)

Lemma shutdown_without_reply_raises_witness :
  let w := Sample.agent [TimedOut] in
  let w' :=
    set_recvs []
      (accepted (QGAConnection.wire_bytes "guest-shutdown"
                   (Some [("mode", PyStr "powerdown")])) w) in
  QGAClient.shutdown (rt := Sample.runtime) "powerdown" Guest.attached w
  = (Raised (Qga QGAConnectionError "Timeout waiting for response"),
     Guest.attached, w')
  /\ sent w'
     = (sent w
          ++ [QGAConnection.wire_bytes "guest-shutdown"
                (Some [("mode", PyStr "powerdown")])])%list
  /\ logged w' = logged w.
Proof.
  intros w.
  apply (EdgeFacts.shutdown_without_reply_raises (rt := Sample.runtime)
           "powerdown" Guest.attached w Sample.connected socket30 []);
    reflexivity.
Defined.

(** *** X21 *)

Lemma undecodable_file_content_is_raised_witness :
  let run :=
    QGAClient.file_read (rt := Guest.runtime) (PyInt 1000) 4096
      QGAClient.default (Sample.script [Guest.garbled_content]) in
  exists cls, run = (Raised (Builtin cls), snd (fst run), snd run).
Proof.
  intros run.
  eapply (EdgeFacts.undecodable_file_content_is_raised (rt := Guest.runtime)
            (PyInt 1000) 4096 QGAClient.default
            (Sample.script [Guest.garbled_content]) _ _ Guest.garbled_content
            (snd (fst run)) (snd run) _ "/w==" _).
  - vm_compute. reflexivity.
  - vm_compute. reflexivity.
  - vm_compute. reflexivity.
  - vm_compute. reflexivity.
  - vm_compute. reflexivity.
Defined.

(** *** X22 *)

Lemma keys_that_are_not_dictionaries_raise_witness :
  let run :=
    QGAClient.ssh_get_authorized_keys (rt := Guest.runtime) "alice"
      QGAClient.default (Sample.script [Guest.keys_as_texts]) in
  run = (Raised (Builtin AttributeError), snd (fst run), snd run).
Proof.
  intros run.
  eapply (EdgeFacts.keys_that_are_not_dictionaries_raise
            (rt := Guest.runtime) "alice" QGAClient.default
            (Sample.script [Guest.keys_as_texts]) _ _ Guest.keys_as_texts
            (snd (fst run)) (snd run) _ [] (PyStr "ssh-ed25519 AAAA alice")
            []).
  - vm_compute. reflexivity.
  - vm_compute. reflexivity.
  - vm_compute. reflexivity.
  - vm_compute. reflexivity.
  - intros d. discriminate.
Defined.

End ExtraExamples.
